(** * AIIP creator: the chunk embedder and the renderer of [create-aiip.py]

    A shallow embedding of [src/create-aiip.py].  The Python values the
    program handles are modelled as follows:

    - [bytes] objects are lists of [Byte.byte];
    - Python integers are [Z]; the 32-bit quantities of [struct] and
      [zlib.crc32] have their range written out;
    - exceptions are the [Raise] branch of [result];
    - [str] objects are lists of Unicode code points;
    - containers ([list], [tuple], [dict]) are objects on a heap, named by
      their address, so that shared and cyclic structures exist;
    - the floats of the fill colour are IEEE binary64 numbers
      ([SpecFloat]); a float inside a metadata structure is known by its
      text.

    Library calls ([struct.pack], [zlib.crc32], [json.dumps], slicing,
    [int], float arithmetic) are modelled after their documented
    behaviour.  The deflate compressor ([zlib.compress]), the PNG encoder
    ([Image.save]), the font loader and the text rasterizer are
    parameters; the drawing calls update a pixel buffer in place.  Limits
    of the interpreter (recursion depth, memory, the digit limit of
    integer texts) are not modelled. *)

From Stdlib Require Import String Ascii.
From Stdlib Require Import ZArith NArith List Bool Lia.
From Stdlib Require Import Strings.Byte DecimalString DecimalZ.
From Stdlib Require Import Floats.SpecFloat.
Import ListNotations.

Local Open Scope Z_scope.

(** ** Exceptions and results *)

Inductive exn : Type :=
| ValueError        (* json: circular reference *)
| TypeError         (* json: object or key of an unsupported type *)
| struct_error      (* struct.pack / struct.unpack *)
| OSError           (* ImageFont.truetype: cannot open resource *)
| KeyError          (* subscript of a dict with a missing key *)
| OverflowError     (* int() of an infinite float *)
| RecursionError.   (* interpreter recursion limit *)

Inductive result (A : Type) : Type :=
| Ok (a : A)
| Raise (e : exn).

Arguments Ok {A} a.
Arguments Raise {A} e.

Definition bind {A B : Type} (r : result A) (k : A -> result B) : result B :=
  match r with
  | Ok a => k a
  | Raise e => Raise e
  end.

Notation "x <- r ;; k" := (bind r (fun x => k))
  (at level 61, r at next level, right associativity).
Notation "' pat <- r ;; k" := (bind r (fun x => match x with pat => k end))
  (at level 61, pat pattern, r at next level, right associativity).

Fixpoint for_each {A St : Type} (body : St -> A -> result St)
    (l : list A) (st : St) : result St :=
  match l with
  | [] => Ok st
  | x :: rest => st' <- body st x ;; for_each body rest st'
  end.

Definition is_ok {A : Type} (r : result A) : bool :=
  match r with Ok _ => true | Raise _ => false end.

(** ** Bytes *)

Definition bytes := list byte.

Definition Z_of_byte (b : byte) : Z := Z.of_N (Byte.to_N b).

Definition byte_of_Z (z : Z) : byte :=
  match Byte.of_N (Z.to_N (z mod 256)) with
  | Some b => b
  | None => x00
  end.

Definition bytes_of_string (s : string) : bytes :=
  List.map byte_of_ascii (list_ascii_of_string s).

(** Python slicing [l[lo:hi]], [l[:hi]] and [l[lo:]] with its clamping of
    indices (a negative index counts from the end). *)
Definition clamp_index (i len : Z) : Z :=
  if i <? 0 then Z.max 0 (len + i) else Z.min i len.

Definition slice {A : Type} (l : list A) (lo hi : Z) : list A :=
  let len := Z.of_nat (length l) in
  let lo' := clamp_index lo len in
  let hi' := clamp_index hi len in
  firstn (Z.to_nat (hi' - lo')) (skipn (Z.to_nat lo') l).

Definition slice_to {A : Type} (l : list A) (hi : Z) : list A :=
  slice l 0 hi.

Definition slice_from {A : Type} (l : list A) (lo : Z) : list A :=
  slice l lo (Z.of_nat (length l)).

(** ** [struct.pack('>I', n)] and [struct.unpack('>I', b)] *)

Definition struct_pack_I (n : Z) : result bytes :=
  if (0 <=? n) && (n <? 2 ^ 32) then
    Ok [ byte_of_Z (Z.shiftr n 24); byte_of_Z (Z.shiftr n 16);
         byte_of_Z (Z.shiftr n 8); byte_of_Z n ]
  else Raise struct_error.

Definition struct_unpack_I (b : bytes) : result Z :=
  match b with
  | [b3; b2; b1; b0] =>
      Ok (Z_of_byte b3 * 2 ^ 24 + Z_of_byte b2 * 2 ^ 16
          + Z_of_byte b1 * 2 ^ 8 + Z_of_byte b0)
  | _ => Raise struct_error
  end.

(** ** [zlib.crc32]: the CRC-32 of the PNG specification

    Reflected polynomial [0xEDB88320], register preset to all ones, result
    complemented. *)

Definition crc_poly : Z := 0xEDB88320.

Definition crc_bit (c : Z) : Z :=
  if Z.odd c then Z.lxor (Z.shiftr c 1) crc_poly else Z.shiftr c 1.

Definition crc_byte (c : Z) (b : byte) : Z :=
  Nat.iter 8 crc_bit (Z.lxor c (Z_of_byte b)).

Definition crc_update (c : Z) (data : bytes) : Z :=
  fold_left crc_byte data c.

Definition zlib_crc32 (data : bytes) : Z :=
  Z.lxor (crc_update 0xFFFFFFFF data) 0xFFFFFFFF.

(** ** Python values of a metadata structure *)

(** A [str] is its sequence of Unicode code points. *)
Definition pystr := list N.

Definition str (s : string) : pystr :=
  List.map N_of_ascii (list_ascii_of_string s).

(** A float inside a metadata structure.  A finite one is identified by
    the text [float.__repr__] gives it, which is all the encoder uses. *)
Inductive pyfloat : Type :=
| Finite (repr : string)
| NaN
| PosInf
| NegInf.

(** Containers are heap objects; a value refers to one by address, so a
    structure may share an object or contain itself. *)
Inductive pyval : Type :=
| PNone
| PBool (b : bool)
| PInt (z : Z)
| PFloat (f : pyfloat)
| PStr (s : pystr)
| PRef (a : nat)
| PObject (tyname : string).   (* an instance of any other type *)

Inductive pyobj : Type :=
| OList (l : list pyval)
| OTuple (l : list pyval)
| ODict (items : list (pyval * pyval)).

Definition heap := list pyobj.

(** ** [json.dumps] with its default arguments

    [ensure_ascii=True], [check_circular=True], [allow_nan=True],
    [skipkeys=False], separators [", "] and [": "]. *)

Definition dquote : string := String "034"%char EmptyString.

Definition hex_digit (n : N) : ascii :=
  match n with
  | 0 => "0" | 1 => "1" | 2 => "2" | 3 => "3" | 4 => "4" | 5 => "5"
  | 6 => "6" | 7 => "7" | 8 => "8" | 9 => "9" | 10 => "a" | 11 => "b"
  | 12 => "c" | 13 => "d" | 14 => "e" | _ => "f"
  end%N%char.

(** ['{0:04x}'.format(n)] for [n < 0x10000]. *)
Definition hex4 (n : N) : string :=
  String (hex_digit (N.shiftr n 12 mod 16))
    (String (hex_digit (N.shiftr n 8 mod 16))
      (String (hex_digit (N.shiftr n 4 mod 16))
        (String (hex_digit (n mod 16)) EmptyString))).

(** The replacement of one character by [ESCAPE_ASCII]. *)
Definition escape_char (c : N) : string :=
  (if c =? 0x5c then "\\"
   else if c =? 0x22 then "\" ++ dquote
   else if c =? 0x08 then "\b"
   else if c =? 0x0c then "\f"
   else if c =? 0x0a then "\n"
   else if c =? 0x0d then "\r"
   else if c =? 0x09 then "\t"
   else if (0x20 <=? c) && (c <=? 0x7e) then String (ascii_of_N c) EmptyString
   else if c <? 0x10000 then "\u" ++ hex4 c
   else
     let n := c - 0x10000 in
     let s1 := N.lor 0xd800 (N.land (N.shiftr n 10) 0x3ff) in
     let s2 := N.lor 0xdc00 (N.land n 0x3ff) in
     "\u" ++ hex4 s1 ++ "\u" ++ hex4 s2)%N%string.

Definition encode_basestring_ascii (s : pystr) : string :=
  (dquote ++ String.concat "" (List.map escape_char s) ++ dquote)%string.

Definition int_repr (z : Z) : string :=
  NilZero.string_of_int (Z.to_int z).

Definition floatstr (f : pyfloat) : string :=
  match f with
  | Finite repr => repr
  | NaN => "NaN"
  | PosInf => "Infinity"
  | NegInf => "-Infinity"
  end.

(** The text of a dictionary key: [str] keys as they are, [float], [bool],
    [None] and [int] keys through their text; any other key is a
    [TypeError]. *)
Definition key_text (k : pyval) : result string :=
  match k with
  | PStr s => Ok (encode_basestring_ascii s)
  | PFloat f => Ok (encode_basestring_ascii (str (floatstr f)))
  | PBool true => Ok (encode_basestring_ascii (str "true"))
  | PBool false => Ok (encode_basestring_ascii (str "false"))
  | PNone => Ok (encode_basestring_ascii (str "null"))
  | PInt z => Ok (encode_basestring_ascii (str (int_repr z)))
  | PRef _ | PObject _ => Raise TypeError
  end.

(** Encoding the elements of a container in order; the first exception
    ends it.  [None] is a recursion that ran out of fuel. *)
Fixpoint encode_each {A : Type} (enc : A -> option (result string))
    (l : list A) : option (result (list string)) :=
  match l with
  | [] => Some (Ok [])
  | x :: rest =>
      match enc x with
      | None => None
      | Some (Raise e) => Some (Raise e)
      | Some (Ok s) =>
          match encode_each enc rest with
          | None => None
          | Some (Raise e) => Some (Raise e)
          | Some (Ok ss) => Some (Ok (s :: ss))
          end
      end
  end.

Definition encode_item (enc : pyval -> option (result string))
    (kv : pyval * pyval) : option (result string) :=
  match key_text (fst kv) with
  | Raise e => Some (Raise e)
  | Ok k =>
      match enc (snd kv) with
      | None => None
      | Some (Raise e) => Some (Raise e)
      | Some (Ok v) => Some (Ok (k ++ ": " ++ v)%string)
      end
  end.

Definition wrap (l r : string) (parts : option (result (list string)))
    : option (result string) :=
  match parts with
  | None => None
  | Some (Raise e) => Some (Raise e)
  | Some (Ok ss) => Some (Ok (l ++ String.concat ", " ss ++ r)%string)
  end.

Definition marked (a : nat) (markers : list nat) : bool :=
  existsb (Nat.eqb a) markers.

(** [_iterencode]: [markers] holds the containers being encoded, and
    meeting one of them again is the circular reference check.  An address
    outside the heap names no container and is refused like any object of
    an unsupported type. *)
Fixpoint iterencode (fuel : nat) (h : heap) (markers : list nat) (o : pyval)
    : option (result string) :=
  match fuel with
  | O => None
  | S fuel' =>
      match o with
      | PStr s => Some (Ok (encode_basestring_ascii s))
      | PNone => Some (Ok "null"%string)
      | PBool true => Some (Ok "true"%string)
      | PBool false => Some (Ok "false"%string)
      | PInt z => Some (Ok (int_repr z))
      | PFloat f => Some (Ok (floatstr f))
      | PObject _ => Some (Raise TypeError)
      | PRef a =>
          match nth_error h a with
          | None => Some (Raise TypeError)
          | Some (OList l) | Some (OTuple l) =>
              match l with
              | [] => Some (Ok "[]"%string)
              | _ =>
                  if marked a markers then Some (Raise ValueError)
                  else wrap "[" "]"
                         (encode_each (iterencode fuel' h (a :: markers)) l)
              end
          | Some (ODict items) =>
              match items with
              | [] => Some (Ok "{}"%string)
              | _ =>
                  if marked a markers then Some (Raise ValueError)
                  else wrap "{" "}"
                         (encode_each
                            (encode_item (iterencode fuel' h (a :: markers)))
                            items)
              end
          end
      end
  end.

(** [json.dumps(data)].  The nesting of a structure without a circular
    reference is at most the number of containers, so the fuel given here
    is never used up (lemma [iterencode_total]). *)
Definition json_dumps (h : heap) (data : pyval) : result string :=
  match iterencode (S (List.length h)) h [] data with
  | Some r => r
  | None => Raise RecursionError
  end.

(** [s.encode('utf-8')] for a text of code points below 256. *)
Definition encode_utf8_char (c : ascii) : bytes :=
  let n := Z.of_N (N_of_ascii c) in
  if n <? 128 then [byte_of_Z n]
  else [byte_of_Z (Z.lor 0xC0 (Z.shiftr n 6));
        byte_of_Z (Z.lor 0x80 (Z.land n 0x3F))].

Definition encode_utf8 (s : string) : bytes :=
  List.concat (List.map encode_utf8_char (list_ascii_of_string s)).

(** ** The chunk embedder *)

Definition chunk_type : bytes := bytes_of_string "aiip".

Section Embedder.

(** [zlib.compress], the deflate compressor of the zlib library. *)
Variable compress : bytes -> bytes.

(** The image object handed to the embedder and [img.save(buffer,
    format='PNG')], the PNG encoder of the imaging library. *)
Variable image : Type.
Variable save_png : image -> bytes.

(** The compressed serialization of the metadata (lines 170-171). *)
Definition compressed_payload (h : heap) (data : pyval) : result bytes :=
  json_str <- json_dumps h data ;;
  Ok (compress (encode_utf8 json_str)).

(** The chunk, [length(4)][type(4)][data(n)][crc(4)] (lines 173-181). *)
Definition build_chunk (compressed : bytes) : result bytes :=
  let chunk_data := x01 :: compressed in
  let crc := Z.land (zlib_crc32 (chunk_type ++ chunk_data)) 0xffffffff in
  len_field <- struct_pack_I (Z.of_nat (List.length chunk_data)) ;;
  crc_field <- struct_pack_I crc ;;
  Ok (len_field ++ chunk_type ++ chunk_data ++ crc_field).

(** Where the chunk goes: after the first chunk of the container
    (lines 185-186). *)
Definition insert_position (png_bytes : bytes) : result Z :=
  ihdr_length <- struct_unpack_I (slice png_bytes 8 12) ;;
  Ok (8 + 4 + 4 + ihdr_length + 4).

(** [embed_aiip_chunk] from the encoded container on (lines 169-191). *)
Definition embed (png_bytes : bytes) (h : heap) (data : pyval)
    : result bytes :=
  compressed <- compressed_payload h data ;;
  chunk <- build_chunk compressed ;;
  insert_pos <- insert_position png_bytes ;;
  Ok (slice_to png_bytes insert_pos ++ chunk
      ++ slice_from png_bytes insert_pos).

Definition embed_aiip_chunk (img : image) (h : heap) (data : pyval)
    : result bytes :=
  let png_bytes := save_png img in
  embed png_bytes h data.

End Embedder.

(** ** Containers *)

Definition png_signature : bytes :=
  [x89; x50; x4e; x47; x0d; x0a; x1a; x0a].

Fixpoint bytes_eqb (a b : bytes) : bool :=
  match a, b with
  | [], [] => true
  | x :: a', y :: b' => Byte.eqb x y && bytes_eqb a' b'
  | _, _ => false
  end.

(** A container the embedder is meant for: the fixed signature, then a
    complete header chunk of type [IHDR]. *)
Definition valid_container (c : bytes) : bool :=
  bytes_eqb (firstn 8 c) png_signature
  && bytes_eqb (firstn 4 (skipn 12 c)) (bytes_of_string "IHDR")
  && match struct_unpack_I (firstn 4 (skipn 8 c)) with
     | Ok len => 8 + 4 + 4 + len + 4 <=? Z.of_nat (List.length c)
     | Raise _ => false
     end.

(** ** A deflate pair to run the embedder on

    [zlib_store] writes a zlib stream of stored (uncompressed) blocks and
    [zlib_unstore] reads one back.  They stand for [zlib.compress] and
    [zlib.decompress] where a concrete compressor is needed. *)

Definition adler32 (data : bytes) : Z :=
  let '(a, b) :=
    fold_left (fun '(a, b) x =>
                 let a' := (a + Z_of_byte x) mod 65521 in
                 (a', (b + a') mod 65521))
              data (1, 0) in
  Z.lor (Z.shiftl b 16) a.

Definition le16 (n : Z) : bytes := [byte_of_Z n; byte_of_Z (Z.shiftr n 8)].

Fixpoint stored_blocks (fuel : nat) (data : bytes) : bytes :=
  match fuel with
  | O => []
  | S fuel' =>
      let block := firstn (Z.to_nat 65535) data in
      let rest := skipn (Z.to_nat 65535) data in
      let len := Z.of_nat (List.length block) in
      let final := match rest with [] => x01 | _ => x00 end in
      (final :: le16 len ++ le16 (Z.lxor len 0xFFFF) ++ block)
      ++ match rest with [] => [] | _ => stored_blocks fuel' rest end
  end.

Definition zlib_store (data : bytes) : bytes :=
  [x78; x01] ++ stored_blocks (S (List.length data)) data
  ++ match struct_pack_I (adler32 data) with Ok b => b | Raise _ => [] end.

Fixpoint unstore_blocks (fuel : nat) (b : bytes) : option (bytes * bytes) :=
  match fuel with
  | O => None
  | S fuel' =>
      match b with
      | final :: l0 :: l1 :: n0 :: n1 :: rest =>
          let len := Z_of_byte l0 + 256 * Z_of_byte l1 in
          let nlen := Z_of_byte n0 + 256 * Z_of_byte n1 in
          if negb (Z.lxor len 0xFFFF =? nlen) then None
          else if Z.of_nat (List.length rest) <? len then None
          else
            let block := firstn (Z.to_nat len) rest in
            let rest' := skipn (Z.to_nat len) rest in
            if Byte.eqb final x01 then Some (block, rest')
            else if Byte.eqb final x00 then
              match unstore_blocks fuel' rest' with
              | Some (more, tail) => Some (block ++ more, tail)
              | None => None
              end
            else None
      | _ => None
      end
  end.

Definition zlib_unstore (b : bytes) : option bytes :=
  match b with
  | x78 :: x01 :: body =>
      match unstore_blocks (List.length body) body with
      | Some (data, trailer) =>
          match struct_pack_I (adler32 data) with
          | Ok sum => if bytes_eqb trailer sum then Some data else None
          | Raise _ => None
          end
      | None => None
      end
  | _ => None
  end.

(** ** Extraction

    Modelled from the spec: [extract], the reader of the injected chunk.
    The program only writes; sections 6 and 8 of the specification define
    the reader as locating the private chunk, stripping the method-tag
    byte, decompressing and deserializing, with [NotFound] ([None] here)
    when there is no such chunk.  The decompressor and the deserializer
    are the library's, kept as parameters. *)

Section Extractor.

Variable decompress : bytes -> option bytes.
Variable metadata : Type.
Variable deserialize : bytes -> option metadata.




End Extractor.

(** ** Python values written out as literals

    A [lit] is a value as the program text writes it: a tree in which
    every container is a fresh object.  [alloc] builds it on the heap. *)

#[warnings="-register-all"]
Inductive lit : Type :=
| LNone
| LBool (b : bool)
| LInt (z : Z)
| LFloat (f : pyfloat)
| LStr (s : pystr)
| LList (l : list lit)
| LTuple (l : list lit)
| LDict (items : list (lit * lit))
| LObject (tyname : string).

Fixpoint alloc (t : lit) (h : heap) : pyval * heap :=
  let fix alloc_list (l : list lit) (h : heap) : list pyval * heap :=
    match l with
    | [] => ([], h)
    | x :: rest =>
        let '(v, h1) := alloc x h in
        let '(vs, h2) := alloc_list rest h1 in
        (v :: vs, h2)
    end in
  let fix alloc_items (l : list (lit * lit)) (h : heap)
      : list (pyval * pyval) * heap :=
    match l with
    | [] => ([], h)
    | (k, x) :: rest =>
        let '(kv, h1) := alloc k h in
        let '(v, h2) := alloc x h1 in
        let '(kvs, h3) := alloc_items rest h2 in
        ((kv, v) :: kvs, h3)
    end in
  match t with
  | LNone => (PNone, h)
  | LBool b => (PBool b, h)
  | LInt z => (PInt z, h)
  | LFloat f => (PFloat f, h)
  | LStr s => (PStr s, h)
  | LObject ty => (PObject ty, h)
  | LList l =>
      let '(vs, h1) := alloc_list l h in
      (PRef (List.length h1), h1 ++ [OList vs])
  | LTuple l =>
      let '(vs, h1) := alloc_list l h in
      (PRef (List.length h1), h1 ++ [OTuple vs])
  | LDict items =>
      let '(kvs, h1) := alloc_items items h in
      (PRef (List.length h1), h1 ++ [ODict kvs])
  end.

(** The heap and root of a literal on its own. *)
Definition heap_of (t : lit) : heap := snd (alloc t []).
Definition root_of (t : lit) : pyval := fst (alloc t []).

Fixpoint pystr_eqb (a b : pystr) : bool :=
  match a, b with
  | [], [] => true
  | x :: a', y :: b' => N.eqb x y && pystr_eqb a' b'
  | _, _ => false
  end.

(** [d[key]] for a string key. *)
Fixpoint lookup_str {V : Type} (key : pystr) (items : list (lit * V))
    : option V :=
  match items with
  | [] => None
  | (LStr k, v) :: rest =>
      if pystr_eqb k key then Some v else lookup_str key rest
  | _ :: rest => lookup_str key rest
  end.

Definition getitem (d : lit) (key : string) : result lit :=
  match d with
  | LDict items =>
      match lookup_str (str key) items with
      | Some v => Ok v
      | None => Raise KeyError
      end
  | _ => Raise TypeError
  end.

Definition as_str (t : lit) : result pystr :=
  match t with LStr s => Ok s | _ => Raise TypeError end.

Definition as_list (t : lit) : result (list lit) :=
  match t with LList l | LTuple l => Ok l | _ => Raise TypeError end.

(** [x1, y1, x2, y2 = t] for integer coordinates. *)
Definition unpack4 (t : lit) : result (Z * Z * Z * Z) :=
  l <- as_list t ;;
  match l with
  | [LInt x1; LInt y1; LInt x2; LInt y2] => Ok (x1, y1, x2, y2)
  | [_; _; _; _] => Raise TypeError
  | _ => Raise ValueError
  end.

(** ** The program's constants (lines 21-81) *)

Definition WIDTH : Z := 800.
Definition HEIGHT : Z := 600.

Definition BG_COLOR : pystr := str "#1a3a5c".
Definition LAND_COLOR : pystr := str "#2d5a3d".

Definition REGION_COLORS : list (lit * pystr) :=
  [ (LStr (str "low"), str "#2ecc71");
    (LStr (str "medium"), str "#f1c40f");
    (LStr (str "high"), str "#e74c3c") ].

Definition region_color (level : pystr) : result pystr :=
  match lookup_str level REGION_COLORS with
  | Some c => Ok c
  | None => Raise KeyError
  end.

Definition txt (s : string) : lit := LStr (str s).

Definition country (name rate : string) : lit :=
  LDict [(txt "name", txt name); (txt "rate", txt rate)].

Definition region (name tariff level : string) (countries : list lit)
    (x1 y1 x2 y2 : Z) : lit :=
  LDict [ (txt "name", txt name);
          (txt "tariff", txt tariff);
          (txt "level", txt level);
          (txt "countries", LList countries);
          (txt "bounds", LTuple [LInt x1; LInt y1; LInt x2; LInt y2]) ].

Definition DATA : lit :=
  LDict [
    (txt "title", txt "US Trade Tariffs 2025");
    (txt "regions", LList [
       region "North America" "25%" "medium"
         [country "Canada" "25%"; country "Mexico" "25%"]
         50 100 250 250;
       region "South America" "35%" "high"
         [country "Brazil" "50%"; country "Argentina" "15%"]
         150 280 300 450;
       region "Europe" "15%" "low"
         [country "UK" "10%"; country "EU" "20%";
          country "Switzerland" "39%"]
         350 80 500 220;
       region "Asia" "30%" "high"
         [country "China" "30%"; country "Japan" "15%";
          country "India" "50%"]
         520 100 750 280 ]) ].

(** The envelope built in [main] (lines 201-210). *)
Definition aiip_data : lit :=
  LDict [
    (txt "version", txt "3.0");
    (txt "canvas", LDict [(txt "width", LInt WIDTH); (txt "height", LInt HEIGHT)]);
    (txt "meta", LDict [ (txt "title", txt "US Trade Tariffs 2025");
                       (txt "author", txt "aezi zhu");
                       (txt "created", txt "2025-01-01") ]);
    (txt "data", DATA) ].

(** ** Numbers of the fill colour (lines 117-119) *)

(** [int(s, 16)] on a text of hexadecimal digits. *)
Definition hex_value (c : N) : option Z :=
  (if (48 <=? c) && (c <=? 57) then Some (Z.of_N (c - 48))
   else if (97 <=? c) && (c <=? 102) then Some (Z.of_N (c - 87))
   else if (65 <=? c) && (c <=? 70) then Some (Z.of_N (c - 55))
   else None)%N.

Definition int16 (s : pystr) : result Z :=
  match s with
  | [] => Raise ValueError
  | _ =>
      for_each (fun acc c =>
                  match hex_value c with
                  | Some d => Ok (16 * acc + d)
                  | None => Raise ValueError
                  end) s 0
  end.

(** Python floats are IEEE binary64 numbers. *)
Definition float := spec_float.

Definition float_of_int (z : Z) : float := binary_normalize 53 1024 z 0 false.
Definition fmul : float -> float -> float := SFmul 53 1024.
Definition fadd : float -> float -> float := SFadd 53 1024.

(** The value of a decimal literal [num/den], the nearest binary64. *)
Definition float_lit (num den : Z) : float :=
  SFdiv 53 1024 (float_of_int num) (float_of_int den).

(** [int(x)]: truncation toward zero. *)
Definition int_of_float (x : float) : result Z :=
  match x with
  | S754_zero _ => Ok 0
  | S754_finite s m e =>
      let a := match e with
               | Zneg p => Z.shiftr (Zpos m) (Zpos p)
               | _ => Z.shiftl (Zpos m) e
               end in
      Ok (if s then - a else a)
  | S754_infinity _ => Raise OverflowError
  | S754_nan => Raise ValueError
  end.

Definition rgb := (Z * Z * Z)%type.

(** [int(c * 0.3 + bg * 0.7)]. *)
Definition blend_channel (c bg : Z) : result Z :=
  int_of_float (fadd (fmul (float_of_int c) (float_lit 3 10))
                     (fmul (float_of_int bg) (float_lit 7 10))).

(** [fill_color] of a region whose severity colour is [color]. *)
Definition fill_color (color : pystr) : result rgb :=
  r <- int16 (slice color 1 3) ;;
  g <- int16 (slice color 3 5) ;;
  b <- int16 (slice color 5 7) ;;
  let channel c := bg <- int16 (slice BG_COLOR 1 3) ;; blend_channel c bg in
  fr <- channel r ;;
  fg <- channel g ;;
  fb <- channel b ;;
  Ok (fr, fg, fb).

(** ** The drawing surface *)

Record canvas : Type := {
  cv_width : Z;
  cv_height : Z;
  cv_pixels : list rgb          (* row by row *)
}.

(** A colour argument: a text or a tuple of channels. *)
Inductive colorspec : Type :=
| CStr (s : pystr)
| CTuple (c : rgb).

(** [ImageColor.getrgb] on the forms the program uses, ['#rrggbb'] and
    ['white']. *)
Definition getrgb (s : pystr) : result rgb :=
  if pystr_eqb s (str "white") then Ok (255, 255, 255)
  else
    match s with
    | 35%N :: digits =>
        if Nat.eqb (List.length digits) 6 then
          r <- int16 (slice s 1 3) ;;
          g <- int16 (slice s 3 5) ;;
          b <- int16 (slice s 5 7) ;;
          Ok (r, g, b)
        else Raise ValueError
    | _ => Raise ValueError
    end.

Definition ink (c : colorspec) : result rgb :=
  match c with
  | CStr s => getrgb s
  | CTuple c => Ok c
  end.

(** [Image.new('RGB', (w, h), color)]. *)
Definition Image_new (w h : Z) (color : pystr) : result canvas :=
  c <- getrgb color ;;
  Ok {| cv_width := w; cv_height := h;
        cv_pixels := repeat c (Z.to_nat (w * h)) |}.

(** Drawing updates the pixels of the image in place. *)
Definition map_pixels (f : Z -> Z -> rgb -> rgb) (img : canvas) : canvas :=
  let w := cv_width img in
  {| cv_width := w;
     cv_height := cv_height img;
     cv_pixels :=
       List.map (fun ip => f (fst ip mod w) (fst ip / w) (snd ip))
         (combine (List.map Z.of_nat (seq 0 (List.length (cv_pixels img))))
                  (cv_pixels img)) |}.

Definition in_box (x1 y1 x2 y2 x y : Z) : bool :=
  (x1 <=? x) && (x <=? x2) && (y1 <=? y) && (y <=? y2).

(** [draw.rectangle([x1, y1, x2, y2], fill=, outline=, width=)]: the box
    includes both corners; the outline lies inside it. *)
Definition draw_rectangle (box : Z * Z * Z * Z) (fill outline : option colorspec)
    (width : Z) (img : canvas) : result canvas :=
  let '(x1, y1, x2, y2) := box in
  img1 <- match fill with
          | Some c =>
              col <- ink c ;;
              Ok (map_pixels (fun x y old =>
                                if in_box x1 y1 x2 y2 x y then col else old)
                             img)
          | None => Ok img
          end ;;
  match outline with
  | Some c =>
      col <- ink c ;;
      Ok (map_pixels
            (fun x y old =>
               if in_box x1 y1 x2 y2 x y
                  && negb (in_box (x1 + width) (y1 + width)
                                  (x2 - width) (y2 - width) x y)
               then col else old)
            img1)
  | None => Ok img1
  end.

Section Renderer.

(** The font objects of the imaging library. *)
Variable font : Type.

(** [ImageFont.truetype(path, size)] on this host: the font, or the
    exception raised when the file cannot be used. *)
Variable truetype : string -> Z -> result font.

(** [ImageFont.load_default()], the font built into the library. *)
Variable load_default : font.

(** The rasterizer: the colour a pixel [(x, y)] takes when [text] is
    drawn at [xy] in [fnt] with alignment [anchor] and ink [col]. *)
Variable text_pixel :
  font -> pystr -> string -> Z * Z -> rgb -> Z -> Z -> rgb -> rgb.

Definition draw_text (xy : Z * Z) (text : pystr) (fill : colorspec)
    (fnt : font) (anchor : string) (img : canvas) : result canvas :=
  col <- ink fill ;;
  Ok (map_pixels (text_pixel fnt text anchor xy col) img).

Definition helvetica : string := "/System/Library/Fonts/Helvetica.ttc".

(** Lines 91-99: the preferred font at three sizes, or the default font
    in all three roles when anything goes wrong. *)
Definition select_fonts : font * font * font :=
  match (font_large <- truetype helvetica 24 ;;
         font_medium <- truetype helvetica 14 ;;
         font_small <- truetype helvetica 11 ;;
         Ok (font_large, font_medium, font_small)) with
  | Ok fonts => fonts
  | Raise _ =>
      let font_large := load_default in
      let font_medium := font_large in
      let font_small := font_large in
      (font_large, font_medium, font_small)
  end.

(** One country line (lines 132-136). *)
Definition draw_country (font_small : font) (x1 x2 : Z)
    (st : canvas * Z) (country : lit) : result (canvas * Z) :=
  let '(img, y_offset) := st in
  name <- (v <- getitem country "name" ;; as_str v) ;;
  rate <- (v <- getitem country "rate" ;; as_str v) ;;
  let text := name ++ str ": " ++ rate in
  img <- draw_text ((x1 + x2) / 2, y_offset) text (CStr (str "#cccccc"))
                   font_small "mm" img ;;
  Ok (img, y_offset + 18).

(** One region (lines 110-136). *)
Definition draw_region (font_medium font_small : font)
    (img : canvas) (region : lit) : result canvas :=
  bounds <- getitem region "bounds" ;;
  '(x1, y1, x2, y2) <- unpack4 bounds ;;
  level <- (v <- getitem region "level" ;; as_str v) ;;
  color <- region_color level ;;
  img <- draw_rectangle (x1, y1, x2, y2) None (Some (CStr color)) 2 img ;;
  fill <- fill_color color ;;
  img <- draw_rectangle (x1 + 2, y1 + 2, x2 - 2, y2 - 2)
                        (Some (CTuple fill)) None 1 img ;;
  name <- (v <- getitem region "name" ;; as_str v) ;;
  img <- draw_text ((x1 + x2) / 2, y1 + 15) name (CStr (str "white"))
                   font_medium "mm" img ;;
  tariff <- (v <- getitem region "tariff" ;; as_str v) ;;
  img <- draw_text ((x1 + x2) / 2, y1 + 35) (str "Avg: " ++ tariff)
                   (CStr color) font_medium "mm" img ;;
  countries <- (v <- getitem region "countries" ;; as_list v) ;;
  '(img, _) <- for_each (draw_country font_small x1 x2) countries
                        (img, y1 + 60) ;;
  Ok img.

Definition legend_items : list (pystr * string) :=
  [ (str "Low (10-15%)", "low"%string);
    (str "Medium (20-25%)", "medium"%string);
    (str "High (30-50%)", "high"%string) ].

(** One legend entry (lines 147-150). *)
Definition draw_legend_item (font_small : font) (legend_y : Z)
    (st : canvas * Z) (item : pystr * pystr) : result (canvas * Z) :=
  let '(img, legend_x) := st in
  let '(label, color) := item in
  img <- draw_rectangle (legend_x, legend_y, legend_x + 15, legend_y + 15)
                        (Some (CStr color)) None 1 img ;;
  img <- draw_text (legend_x + 22, legend_y + 7) label (CStr (str "white"))
                   font_small "lm" img ;;
  Ok (img, legend_x + 150).

(** [create_aiip_image] (lines 84-157). *)
Definition create_aiip_image : result canvas :=
  img <- Image_new WIDTH HEIGHT BG_COLOR ;;
  let '(font_large, font_medium, font_small) := select_fonts in
  title <- (v <- getitem DATA "title" ;; as_str v) ;;
  img <- draw_text (WIDTH / 2, 30) title (CStr (str "white"))
                   font_large "mm" img ;;
  img <- draw_text (WIDTH / 2, 55)
                   (str "Hover regions for details (in AIIP viewer)")
                   (CStr (str "#888888")) font_small "mm" img ;;
  regions <- (v <- getitem DATA "regions" ;; as_list v) ;;
  img <- for_each (draw_region font_medium font_small) regions img ;;
  let legend_y := HEIGHT - 50 in
  legend_items <-
    for_each (fun acc item =>
                color <- region_color (str (snd item)) ;;
                Ok (acc ++ [(fst item, color)]))
             legend_items [] ;;
  '(img, _) <- for_each (draw_legend_item font_small legend_y)
                        legend_items (img, 100) ;;
  img <- draw_text (WIDTH / 2, HEIGHT - 15)
           (str "AIIP v3.0 - Annotated Interactive Image Protocol | github.com/aezizhu")
           (CStr (str "#666666")) font_small "mm" img ;;
  Ok img.

End Renderer.

(** ** Structures of a metadata value *)

Definition children (o : pyobj) : list pyval :=
  match o with
  | OList l | OTuple l => l
  | ODict items => List.map snd items
  end.

(** [w] is an element of the container [v], or a value in it. *)
Definition child (h : heap) (v w : pyval) : Prop :=
  exists a o, v = PRef a /\ nth_error h a = Some o /\ In w (children o).

Inductive reaches (h : heap) : pyval -> pyval -> Prop :=
| reaches_here v : reaches h v v
| reaches_child v w u : child h v w -> reaches h w u -> reaches h v u.


Definition key_ok (k : pyval) : bool :=
  match k with
  | PStr _ | PFloat _ | PBool _ | PNone | PInt _ => true
  | PRef _ | PObject _ => false
  end.



(** ** What a deserializer returns, and structural equality

    A JSON text denotes [null], booleans, numbers, strings, arrays and
    objects keyed by strings; [json.loads] returns them as [None], [bool],
    [int], [float], [str], [list] and [dict]. *)







(** ** The blend as the specification words it

    Section 4.1: [out = fg*0.3 + bg*0.7] per channel, the background
    channel being the one that corresponds to the foreground channel,
    rounded to the nearest integer.  In exact arithmetic, ties upward. *)

Definition round_nearest_tenths (tenths : Z) : Z := (tenths + 5) / 10.

Definition claimed_blend (fg bg : Z) : Z :=
  round_nearest_tenths (3 * fg + 7 * bg).

Definition claimed_fill (color background : pystr) : result rgb :=
  '(r, g, b) <- getrgb color ;;
  '(br, bgreen, bb) <- getrgb background ;;
  Ok (claimed_blend r br, claimed_blend g bgreen, claimed_blend b bb).

(** ** A smallest container: a 1x1 image *)

Definition png_1x1 : bytes :=
  [ x89; x50; x4e; x47; x0d; x0a; x1a; x0a;
    x00; x00; x00; x0d; x49; x48; x44; x52;
    x00; x00; x00; x01; x00; x00; x00; x01; x08; x02; x00; x00; x00;
    x90; x77; x53; xde;
    x00; x00; x00; x0c; x49; x44; x41; x54;
    x78; x9c; x63; x90; xb2; x8a; x01; x00; x01; x22; x00; xb1;
    x07; x48; x4e; xe9;
    x00; x00; x00; x00; x49; x45; x4e; x44; xae; x42; x60; x82 ].

(** The envelope of the end-to-end scenario of section 8. *)
Definition scenario_envelope : lit :=
  LDict [
    (txt "version", txt "3.0");
    (txt "canvas", LDict [(txt "width", LInt 800); (txt "height", LInt 600)]);
    (txt "meta", LDict [(txt "title", txt "T")]);
    (txt "data", LDict []) ].

(** ** The injected chunk and its place *)

(** The chunk that [embed] builds for a metadata structure. *)
Definition injected_chunk (compress : bytes -> bytes) (h : heap)
    (data : pyval) : result bytes :=
  compressed <- compressed_payload compress h data ;;
  build_chunk compressed.

(** The number of leading bytes a slice bound [p] keeps of [l]. *)
Definition cut_point {A : Type} (l : list A) (p : Z) : nat :=
  Z.to_nat (clamp_index p (Z.of_nat (List.length l))).


(** The data field of a chunk record: the bytes between its type field
    and its checksum field. *)
Definition data_field (chunk : bytes) : bytes :=
  firstn (List.length chunk - 12) (skipn 8 chunk).

(** The last four bytes of a chunk record. *)
Definition checksum_field (chunk : bytes) : bytes :=
  skipn (List.length chunk - 4) chunk.


(** ** A sample run

    The scenario of section 8 with the stored-block compressor. *)

Definition sample_heap : heap := heap_of scenario_envelope.
Definition sample_root : pyval := root_of scenario_envelope.

Definition sample_out : bytes :=
  match embed zlib_store png_1x1 sample_heap sample_root with
  | Ok out => out
  | Raise _ => []
  end.

(** The range of a 32-bit register. *)
Definition word32 (c : Z) : Prop := 0 <= c < 2 ^ 32.

(** Sixteen bytes that are no image at all. *)
Definition not_a_png : bytes := bytes_of_string "not a png at all".


(** An envelope of strings, integers and mappings, one of them keyed by
    integers. *)
Definition numbered_envelope : lit :=
  LDict [ (txt "version", txt "3.0");
          (txt "data", LDict [ (LInt 1, txt "North America");
                               (LInt 2, txt "Europe") ]) ].


(** The chunk of the sample run. *)
Definition sample_chunk : bytes :=
  match injected_chunk zlib_store sample_heap sample_root with
  | Ok chunk => chunk
  | Raise _ => []
  end.

(** The text of the sample run, and a reader that leaves it a text. *)
Definition sample_text : bytes :=
  match json_dumps sample_heap sample_root with
  | Ok s => encode_utf8 s
  | Raise _ => []
  end.


Definition sample_json : string :=
  match json_dumps sample_heap sample_root with
  | Ok s => s
  | Raise _ => EmptyString
  end.

(** ** The size of the image *)

(** The image has the dimensions of the program and a pixel for each
    position. *)
Definition good (img : canvas) : Prop :=
  cv_width img = WIDTH /\ cv_height img = HEIGHT
  /\ List.length (cv_pixels img) = Z.to_nat (WIDTH * HEIGHT).

(** The channels of a colour. *)
Definition red (c : rgb) : Z := fst (fst c).
Definition green (c : rgb) : Z := snd (fst c).
Definition blue (c : rgb) : Z := snd c.

Definition channel_ok (x : Z) : bool := (0 <=? x) && (x <=? 255).

(** ** Chunk records of a container

    A container is well formed when, after the signature, it is a sequence
    of chunk records, each with a length field that matches its data field
    and a checksum field that matches its type and data. *)

Fixpoint chunk_records_ok (fuel : nat) (b : bytes) : bool :=
  match b with
  | [] => true
  | _ :: _ =>
      match fuel with
      | O => false
      | S fuel' =>
          match struct_unpack_I (firstn 4 b) with
          | Raise _ => false
          | Ok len =>
              if Z.of_nat (List.length b) <? 4 + 4 + len + 4 then false
              else
                let n := Z.to_nat len in
                match struct_unpack_I (firstn 4 (skipn (8 + n) b)) with
                | Ok crc =>
                    if crc =? zlib_crc32 (firstn 4 (skipn 4 b)
                                          ++ firstn n (skipn 8 b))
                    then chunk_records_ok fuel' (skipn (12 + n) b)
                    else false
                | Raise _ => false
                end
          end
      end
  end.

Definition png_well_formed (c : bytes) : bool :=
  bytes_eqb (firstn 8 c) png_signature
  && chunk_records_ok (List.length c) (skipn 8 c).

(** ** Tuples read as lists *)

Definition tuple_as_list (o : pyobj) : pyobj :=
  match o with
  | OTuple l => OList l
  | OList _ | ODict _ => o
  end.

(** ** Pixels of an image *)

Definition pixel_at (img : canvas) (x y : Z) : option rgb :=
  if (0 <=? x) && (x <? cv_width img) && (0 <=? y)
  then nth_error (cv_pixels img) (Z.to_nat (y * cv_width img + x))
  else None.

(** ** The entry point (lines 194-225) *)

(** What [main] acts on: the files of the working directory and the
    lines printed so far. *)
Record world : Type := {
  files : list (string * bytes);
  stdout : list string
}.

Definition print (w : world) (line : string) : world :=
  {| files := files w; stdout := stdout w ++ [line] |}.

Fixpoint read_file (fs : list (string * bytes)) (path : string)
    : option bytes :=
  match fs with
  | [] => None
  | (p, content) :: rest =>
      if String.eqb p path then Some content else read_file rest path
  end.

(** [with open(path, 'wb') as f: f.write(data)]: the file is created or
    replaced. *)
Definition write_file (w : world) (path : string) (data : bytes) : world :=
  {| files := (path, data) :: files w; stdout := stdout w |}.

(** [f"{n:,}"]: the decimal text with a comma between groups of three
    digits. *)
Fixpoint group_thousands (rev_digits : list ascii) : list ascii :=
  match rev_digits with
  | a :: b :: c :: ((_ :: _) as rest) =>
      a :: b :: c :: ","%char :: group_thousands rest
  | _ => rev_digits
  end.

Definition format_commas (n : Z) : string :=
  let digits := list_ascii_of_string (int_repr (Z.abs n)) in
  let grouped := string_of_list_ascii (rev (group_thousands (rev digits))) in
  if n <? 0 then ("-" ++ grouped)%string else grouped.

Section EntryPoint.

Variable font : Type.
Variable truetype : string -> Z -> result font.
Variable load_default : font.
Variable text_pixel :
  font -> pystr -> string -> Z * Z -> rgb -> Z -> Z -> rgb -> rgb.
Variable compress : bytes -> bytes.
Variable save_png : canvas -> bytes.

(** Whether the host lets the program open a path for writing. *)
Variable writable : string -> bool.

Definition main (w : world) : world * result unit :=
  let w := print w "Creating AIIP image..." in
  match create_aiip_image font truetype load_default text_pixel with
  | Raise e => (w, Raise e)
  | Ok img =>
      match embed_aiip_chunk compress canvas save_png img
              (heap_of aiip_data) (root_of aiip_data) with
      | Raise e => (w, Raise e)
      | Ok png_bytes =>
          let output_path := "sample.aiip"%string in
          if writable output_path then
            let w := write_file w output_path png_bytes in
            let w := print w ("Created: " ++ output_path) in
            let w := print w ("Size: "
                              ++ format_commas (Z.of_nat (List.length png_bytes))
                              ++ " bytes") in
            let w := print w "" in
            let w := print w "This file can be opened with ANY image viewer." in
            let w := print w "Rename to .png if needed: mv sample.aiip sample.png" in
            let w := print w "" in
            let w := print w "All content is visible directly in the image!" in
            (w, Ok tt)
          else (w, Raise OSError)
      end
  end.

End EntryPoint.

(** A host without the preferred font, an encoder that always gives the
    1x1 container, and a rasterizer that draws nothing. *)
Definition no_font (path : string) (size : Z) : result unit := Raise OSError.
Definition blank_text (f : unit) (text : pystr) (anchor : string)
    (xy : Z * Z) (col : rgb) (x y : Z) (old : rgb) : rgb := old.
Definition tiny_png (img : canvas) : bytes := png_1x1.
Definition empty_world : world := {| files := []; stdout := [] |}.

(** ** More sample runs *)

(** A second embedding, into the output of the first. *)
Definition sample_out2 : bytes :=
  match embed zlib_store sample_out (heap_of numbered_envelope)
          (root_of numbered_envelope) with
  | Ok out => out
  | Raise _ => []
  end.

(** An 8x8 image in the background colour. *)
Definition small_canvas : canvas :=
  {| cv_width := 8; cv_height := 8; cv_pixels := repeat (26, 58, 92) 64 |}.

Definition always_writable (path : string) : bool := true.

(** A value the encoder has no text for: an object of another type, an
    address that names no container, or a dictionary with a key that is
    neither a string, a number, a boolean nor [None]. *)
Definition unsupported (h : heap) (v : pyval) : Prop :=
  match v with
  | PObject _ => True
  | PRef a =>
      match nth_error h a with
      | None => True
      | Some (ODict items) =>
          exists kv, In kv items /\ key_ok (fst kv) = false
      | Some (OList _) | Some (OTuple _) => False
      end
  | PNone | PBool _ | PInt _ | PFloat _ | PStr _ => False
  end.

(** A list that holds an object of a type the encoder does not know. *)
Definition object_list_heap : heap := [OList [PInt 1; PObject "set"]].
Definition object_list : pyval := PRef 0.

(** * Properties *)

(** ** Results *)

Lemma bind_ok {A B : Type} (r : result A) (k : A -> result B) (b : B) :
  bind r k = Ok b -> exists a, r = Ok a /\ k a = Ok b.
Proof.
  destruct r as [a | e]; simpl; intros H; [exists a; auto | discriminate].
Qed.

Ltac bind_inv H :=
  let a := fresh "a" in
  let Ha := fresh "Ha" in
  apply bind_ok in H; destruct H as (a & Ha & H).

(** ** The library models on known values *)

Example crc32_check_value :
  zlib_crc32 (bytes_of_string "123456789") = 0xCBF43926.
Proof. vm_compute. reflexivity. Qed.

Example crc32_of_IEND :
  struct_pack_I (zlib_crc32 (bytes_of_string "IEND"))
  = Ok [xae; x42; x60; x82].
Proof. vm_compute. reflexivity. Qed.

Example zlib_store_hello :
  zlib_store (bytes_of_string "hello")
  = [x78; x01; x01; x05; x00; xfa; xff] ++ bytes_of_string "hello"
    ++ [x06; x2c; x02; x15]
  /\ zlib_unstore (zlib_store (bytes_of_string "hello"))
     = Some (bytes_of_string "hello").
Proof. split; vm_compute; reflexivity. Qed.

Example json_dumps_scenario :
  json_dumps sample_heap sample_root
  = Ok (String.concat dquote
          [ "{"; "version"; ": "; "3.0"; ", "; "canvas"; ": {"; "width";
            ": 800, "; "height"; ": 600}, "; "meta"; ": {"; "title"; ": ";
            "T"; "}, "; "data"; ": {}}" ])%string.
Proof. vm_compute. reflexivity. Qed.

Example json_dumps_escapes :
  json_dumps [] (PStr [0x1F600; 0xE9; 0x0A; 0x5C]%N)
  = Ok (dquote ++ "\ud83d\ude00\u00e9\n\\" ++ dquote)%string.
Proof. vm_compute. reflexivity. Qed.

Example float_literals :
  float_lit 3 10 = S754_finite false 5404319552844595 (-54)
  /\ float_lit 7 10 = S754_finite false 6305039478318694 (-53).
Proof. split; vm_compute; reflexivity. Qed.

Example fill_colors :
  fill_color (str "#2ecc71") = Ok (32, 79, 52)
  /\ fill_color (str "#f1c40f") = Ok (90, 77, 22)
  /\ fill_color (str "#e74c3c") = Ok (87, 41, 36).
Proof. repeat split; vm_compute; reflexivity. Qed.

(** ** Bytes and the 32-bit fields *)

Lemma Z_of_byte_range (b : byte) : 0 <= Z_of_byte b < 256.
Proof.
  unfold Z_of_byte. pose proof (Byte.to_N_bounded b). lia.
Qed.

Lemma Z_of_byte_of_Z (z : Z) : Z_of_byte (byte_of_Z z) = z mod 256.
Proof.
  unfold Z_of_byte, byte_of_Z.
  assert (Hr : 0 <= z mod 256 < 256) by (apply Z.mod_pos_bound; lia).
  destruct (Byte.of_N (Z.to_N (z mod 256))) as [b |] eqn:E.
  - apply Byte.to_of_N in E. rewrite E. lia.
  - apply Byte.of_N_None_iff in E. lia.
Qed.



Lemma struct_pack_I_ok (n : Z) :
  0 <= n < 2 ^ 32 ->
  struct_pack_I n =
    Ok [ byte_of_Z (Z.shiftr n 24); byte_of_Z (Z.shiftr n 16);
         byte_of_Z (Z.shiftr n 8); byte_of_Z n ].
Proof.
  intros Hn. unfold struct_pack_I.
  replace ((0 <=? n) && (n <? 2 ^ 32)) with true; [reflexivity |].
  symmetry. apply andb_true_iff. split; [apply Z.leb_le | apply Z.ltb_lt]; lia.
Qed.

Lemma struct_pack_I_inv (n : Z) (b : bytes) :
  struct_pack_I n = Ok b ->
  0 <= n < 2 ^ 32 /\
  b = [ byte_of_Z (Z.shiftr n 24); byte_of_Z (Z.shiftr n 16);
        byte_of_Z (Z.shiftr n 8); byte_of_Z n ].
Proof.
  unfold struct_pack_I.
  destruct ((0 <=? n) && (n <? 2 ^ 32)) eqn:E; [| discriminate].
  apply andb_true_iff in E. destruct E as [E1 E2].
  apply Z.leb_le in E1. apply Z.ltb_lt in E2.
  intros H. injection H as <-. split; [lia | reflexivity].
Qed.

Lemma struct_pack_I_raises (n : Z) :
  ~ (0 <= n < 2 ^ 32) -> struct_pack_I n = Raise struct_error.
Proof.
  intros Hn. unfold struct_pack_I.
  destruct ((0 <=? n) && (n <? 2 ^ 32)) eqn:E; [| reflexivity].
  apply andb_true_iff in E. destruct E as [E1 E2].
  apply Z.leb_le in E1. apply Z.ltb_lt in E2. lia.
Qed.

(** Unpacking a packed number gives it back. *)
Lemma struct_unpack_pack (n : Z) (b : bytes) :
  struct_pack_I n = Ok b -> struct_unpack_I b = Ok n.
Proof.
  intros H. apply struct_pack_I_inv in H. destruct H as [Hn ->].
  unfold struct_unpack_I. rewrite !Z_of_byte_of_Z. f_equal.
  rewrite !Z.shiftr_div_pow2 by lia.
  change (2 ^ 24) with (256 * 256 * 256). change (2 ^ 16) with (256 * 256).
  change (2 ^ 8) with 256. change (2 ^ 32) with 4294967296 in Hn.
  rewrite <- !Z.div_div by lia.
  set (q1 := n / 256). set (q2 := q1 / 256). set (q3 := q2 / 256).
  pose proof (Z.div_mod n 256 ltac:(lia)) as E0.
  pose proof (Z.div_mod q1 256 ltac:(lia)) as E1.
  pose proof (Z.div_mod q2 256 ltac:(lia)) as E2.
  pose proof (Z.mod_pos_bound n 256 ltac:(lia)).
  pose proof (Z.mod_pos_bound q1 256 ltac:(lia)).
  pose proof (Z.mod_pos_bound q2 256 ltac:(lia)).
  fold q1 in E0. fold q2 in E1. fold q3 in E2.
  assert (0 <= q3 < 256) by lia.
  rewrite (Z.mod_small q3) by lia. lia.
Qed.

Lemma struct_unpack_I_inv (b : bytes) (n : Z) :
  struct_unpack_I b = Ok n -> List.length b = 4%nat /\ 0 <= n < 2 ^ 32.
Proof.
  unfold struct_unpack_I.
  destruct b as [| b3 [| b2 [| b1 [| b0 [| ? ?]]]]]; try discriminate.
  intros H. injection H as <-. split; [reflexivity |].
  pose proof (Z_of_byte_range b3). pose proof (Z_of_byte_range b2).
  pose proof (Z_of_byte_range b1). pose proof (Z_of_byte_range b0).
  change (2 ^ 24) with 16777216. change (2 ^ 16) with 65536.
  change (2 ^ 8) with 256. change (2 ^ 32) with 4294967296. lia.
Qed.

(** ** Slices *)

Lemma clamp_index_range (i len : Z) :
  0 <= len -> 0 <= clamp_index i len <= len.
Proof.
  intros Hl. unfold clamp_index. destruct (i <? 0) eqn:E.
  - apply Z.ltb_lt in E. lia.
  - apply Z.ltb_ge in E. lia.
Qed.

Lemma clamp_index_nonneg (i len : Z) :
  0 <= i -> clamp_index i len = Z.min i len.
Proof.
  intros Hi. unfold clamp_index.
  destruct (i <? 0) eqn:E; [apply Z.ltb_lt in E; lia | reflexivity].
Qed.

Lemma slice_to_firstn {A : Type} (l : list A) (p : Z) :
  slice_to l p = firstn (cut_point l p) l.
Proof.
  unfold slice_to, slice, cut_point.
  rewrite (clamp_index_nonneg 0) by lia.
  rewrite Z.min_l by lia. simpl skipn. rewrite Z.sub_0_r. reflexivity.
Qed.

Lemma slice_from_skipn {A : Type} (l : list A) (p : Z) :
  slice_from l p = skipn (cut_point l p) l.
Proof.
  unfold slice_from, slice, cut_point.
  set (len := Z.of_nat (List.length l)).
  rewrite (clamp_index_nonneg len) by lia.
  rewrite Z.min_id.
  pose proof (clamp_index_range p len ltac:(lia)) as Hr.
  apply firstn_all2. rewrite length_skipn. lia.
Qed.

(** The two halves of a cut make up the list. *)
Lemma slice_to_from {A : Type} (l : list A) (p : Z) :
  slice_to l p ++ slice_from l p = l.
Proof.
  rewrite slice_to_firstn, slice_from_skipn. apply firstn_skipn.
Qed.

Lemma cut_point_le {A : Type} (l : list A) (p : Z) :
  (cut_point l p <= List.length l)%nat.
Proof.
  unfold cut_point.
  pose proof (clamp_index_range p (Z.of_nat (List.length l)) ltac:(lia)). lia.
Qed.

Lemma cut_point_inside {A : Type} (l : list A) (p : Z) :
  0 <= p <= Z.of_nat (List.length l) -> cut_point l p = Z.to_nat p.
Proof.
  intros Hp. unfold cut_point. rewrite clamp_index_nonneg by lia.
  rewrite Z.min_l by lia. reflexivity.
Qed.

Lemma slice_between {A : Type} (l : list A) (lo hi : Z) :
  0 <= lo <= hi ->
  slice l lo hi = firstn (Z.to_nat (hi - lo)) (skipn (Z.to_nat lo) l).
Proof.
  intros Hr. unfold slice. set (len := Z.of_nat (List.length l)).
  rewrite !clamp_index_nonneg by lia.
  destruct (Z_le_gt_dec hi len) as [H1 | H1].
  - rewrite !Z.min_l by lia. reflexivity.
  - rewrite (Z.min_r hi) by lia.
    destruct (Z_le_gt_dec lo len) as [H2 | H2].
    + rewrite Z.min_l by lia.
      rewrite !firstn_all2; try reflexivity; rewrite length_skipn; lia.
    + rewrite Z.min_r by lia. rewrite Z.sub_diag. simpl firstn.
      rewrite (skipn_all2 (n := Z.to_nat lo)) by lia.
      rewrite firstn_nil. reflexivity.
Qed.

Lemma firstn_app_exact {A : Type} (n : nat) (l1 l2 : list A) :
  List.length l1 = n -> firstn n (l1 ++ l2) = l1.
Proof.
  intros <-. rewrite firstn_app, Nat.sub_diag. simpl firstn at 2.
  rewrite app_nil_r. apply firstn_all.
Qed.

Lemma skipn_app_exact {A : Type} (n : nat) (l1 l2 : list A) :
  List.length l1 = n -> skipn n (l1 ++ l2) = l2.
Proof.
  intros <-. rewrite skipn_app, Nat.sub_diag, skipn_all. reflexivity.
Qed.

(** ** The steps of [embed] *)

Section EmbedderFacts.

Variable compress : bytes -> bytes.

Lemma build_chunk_inv (compressed chunk : bytes) :
  build_chunk compressed = Ok chunk ->
  exists len_field crc_field,
    struct_pack_I (1 + Z.of_nat (List.length compressed)) = Ok len_field
    /\ struct_pack_I
         (Z.land (zlib_crc32 (chunk_type ++ x01 :: compressed)) 0xffffffff)
       = Ok crc_field
    /\ chunk = len_field ++ chunk_type ++ (x01 :: compressed) ++ crc_field.
Proof.
  unfold build_chunk. intros H.
  bind_inv H. bind_inv H. injection H as <-.
  exists a, a0. repeat split; try assumption.
  rewrite <- Ha. f_equal. simpl List.length. lia.
Qed.

Lemma embed_inv (png_bytes : bytes) (h : heap) (data : pyval) (out : bytes) :
  embed compress png_bytes h data = Ok out ->
  exists compressed chunk pos,
    compressed_payload compress h data = Ok compressed
    /\ build_chunk compressed = Ok chunk
    /\ insert_position png_bytes = Ok pos
    /\ out = firstn (cut_point png_bytes pos) png_bytes ++ chunk
             ++ skipn (cut_point png_bytes pos) png_bytes.
Proof.
  unfold embed. intros H.
  bind_inv H. bind_inv H. bind_inv H. injection H as <-.
  exists a, a0, a1. repeat split; try assumption.
  rewrite slice_to_firstn, slice_from_skipn. reflexivity.
Qed.

Lemma embed_injected (png_bytes : bytes) (h : heap) (data : pyval)
    (out : bytes) :
  embed compress png_bytes h data = Ok out ->
  exists chunk pos,
    injected_chunk compress h data = Ok chunk
    /\ insert_position png_bytes = Ok pos
    /\ out = firstn (cut_point png_bytes pos) png_bytes ++ chunk
             ++ skipn (cut_point png_bytes pos) png_bytes.
Proof.
  intros H. apply embed_inv in H.
  destruct H as (compressed & chunk & pos & Hc & Hb & Hp & ->).
  exists chunk, pos. repeat split; try assumption.
  unfold injected_chunk. rewrite Hc. exact Hb.
Qed.

Lemma insert_position_inv (png_bytes : bytes) (pos : Z) :
  insert_position png_bytes = Ok pos ->
  exists ihdr_length,
    struct_unpack_I (firstn 4 (skipn 8 png_bytes)) = Ok ihdr_length
    /\ pos = 8 + 4 + 4 + ihdr_length + 4
    /\ 0 <= ihdr_length < 2 ^ 32
    /\ (12 <= List.length png_bytes)%nat.
Proof.
  unfold insert_position. intros H. bind_inv H. injection H as <-.
  rewrite slice_between in Ha by lia.
  change (Z.to_nat (12 - 8)) with 4%nat in Ha.
  change (Z.to_nat 8) with 8%nat in Ha.
  exists a. pose proof (struct_unpack_I_inv _ _ Ha) as [Hl Hr].
  repeat split; try assumption; try lia.
  rewrite length_firstn, length_skipn in Hl. lia.
Qed.

End EmbedderFacts.

Lemma sample_embed :
  embed zlib_store png_1x1 sample_heap sample_root = Ok sample_out.
Proof. vm_compute. reflexivity. Qed.

(** ** The layout of the injected chunk *)

Section ChunkLayout.

Variable compress : bytes -> bytes.

Lemma build_chunk_layout (compressed chunk : bytes) :
  build_chunk compressed = Ok chunk ->
  struct_pack_I (1 + Z.of_nat (List.length compressed)) = Ok (firstn 4 chunk)
  /\ firstn 4 (skipn 4 chunk) = chunk_type
  /\ data_field chunk = x01 :: compressed
  /\ struct_pack_I
       (Z.land (zlib_crc32 (chunk_type ++ x01 :: compressed)) 0xffffffff)
     = Ok (checksum_field chunk)
  /\ List.length chunk = (4 + 4 + (1 + List.length compressed) + 4)%nat.
Proof.
  intros H. apply build_chunk_inv in H.
  destruct H as (lf & cf & Hl & Hc & ->).
  pose proof (struct_pack_I_inv _ _ Hl) as [_ El].
  pose proof (struct_pack_I_inv _ _ Hc) as [_ Ec].
  assert (Ll : List.length lf = 4%nat) by (rewrite El; reflexivity).
  assert (Lc : List.length cf = 4%nat) by (rewrite Ec; reflexivity).
  assert (Lt : List.length chunk_type = 4%nat) by reflexivity.
  assert (Len : List.length (lf ++ chunk_type ++ (x01 :: compressed) ++ cf)
                = (4 + 4 + (1 + List.length compressed) + 4)%nat).
  { rewrite !length_app. simpl List.length. lia. }
  repeat split.
  - rewrite firstn_app_exact by exact Ll. exact Hl.
  - rewrite skipn_app_exact by exact Ll.
    apply firstn_app_exact. exact Lt.
  - unfold data_field. rewrite Len.
    rewrite (app_assoc lf), skipn_app_exact
      by (rewrite length_app, Ll, Lt; reflexivity).
    apply firstn_app_exact. simpl. lia.
  - unfold checksum_field. rewrite Len.
    rewrite (app_assoc lf), (app_assoc (lf ++ chunk_type)).
    rewrite skipn_app_exact; [exact Hc |].
    rewrite !length_app, Ll, Lt. simpl. lia.
  - exact Len.
Qed.



(** C5.  Whenever [embed] returns, its output is longer than the
    container by 8 (length and type fields) + 1 (method tag) + the size
    of the compressed payload + 4 (checksum), and its first 8 bytes are
    the first 8 bytes of the container. *)
Theorem size_and_signature (png_bytes : bytes) (h : heap) (data : pyval)
    (out : bytes) :
  embed compress png_bytes h data = Ok out ->
  exists compressed,
    compressed_payload compress h data = Ok compressed
    /\ Z.of_nat (List.length out)
       = Z.of_nat (List.length png_bytes) + 8 + 1
         + Z.of_nat (List.length compressed) + 4
    /\ firstn 8 out = firstn 8 png_bytes.
Proof.
  intros H. apply embed_inv in H.
  destruct H as (compressed & chunk & pos & Hc & Hb & Hp & ->).
  exists compressed.
  pose proof (build_chunk_layout _ _ Hb) as (_ & _ & _ & _ & Hlen).
  apply insert_position_inv in Hp.
  destruct Hp as (n & _ & -> & Hn & Hlong).
  set (k := cut_point png_bytes (8 + 4 + 4 + n + 4)).
  assert (Hk : (8 <= k <= List.length png_bytes)%nat).
  { unfold k, cut_point. rewrite clamp_index_nonneg by lia. lia. }
  repeat split.
  - exact Hc.
  - rewrite !length_app, Hlen, length_firstn, length_skipn. lia.
  - rewrite firstn_app, length_firstn.
    replace (8 - Nat.min k (List.length png_bytes))%nat with 0%nat by lia.
    simpl firstn at 2. rewrite app_nil_r.
    rewrite firstn_firstn. f_equal. lia.
Qed.

Lemma valid_container_inv (c : bytes) :
  valid_container c = true ->
  exists ihdr_length,
    firstn 8 c = png_signature
    /\ firstn 4 (skipn 12 c) = bytes_of_string "IHDR"
    /\ struct_unpack_I (firstn 4 (skipn 8 c)) = Ok ihdr_length
    /\ 8 + 4 + 4 + ihdr_length + 4 <= Z.of_nat (List.length c)
    /\ 0 <= ihdr_length.
Proof.
  unfold valid_container. intros H.
  apply andb_true_iff in H. destruct H as [H H3].
  apply andb_true_iff in H. destruct H as [H1 H2].
  destruct (struct_unpack_I (firstn 4 (skipn 8 c))) as [n |] eqn:E;
    [| discriminate].
  exists n. apply Z.leb_le in H3.
  assert (Heq : forall a b, bytes_eqb a b = true -> a = b).
  { induction a as [| x a IH]; intros [| y b]; simpl; try discriminate.
    - reflexivity.
    - intros Hxy. apply andb_true_iff in Hxy. destruct Hxy as [Hx Hy].
      apply Byte.byte_dec_bl in Hx. subst. f_equal. apply IH. exact Hy. }
  apply struct_unpack_I_inv in E as E'. destruct E' as [_ Hn].
  repeat split; auto; lia.
Qed.

(** C2.  For a valid container the output of [embed] is the bytes of the
    container up to the insertion point (8 + 4 + 4 + header data length
    + 4), then the new chunk, then the rest of the container; deleting
    the chunk from the output gives the container back. *)
Theorem splice_non_destructive (png_bytes : bytes) (h : heap)
    (data : pyval) (out : bytes) :
  valid_container png_bytes = true ->
  embed compress png_bytes h data = Ok out ->
  exists ihdr_length chunk,
    struct_unpack_I (firstn 4 (skipn 8 png_bytes)) = Ok ihdr_length
    /\ injected_chunk compress h data = Ok chunk
    /\ let pos := Z.to_nat (8 + 4 + 4 + ihdr_length + 4) in
       (pos <= List.length png_bytes)%nat
       /\ out = firstn pos png_bytes ++ chunk ++ skipn pos png_bytes
       /\ firstn pos out = firstn pos png_bytes
       /\ firstn (List.length chunk) (skipn pos out) = chunk
       /\ skipn (pos + List.length chunk) out = skipn pos png_bytes
       /\ firstn pos out ++ skipn (pos + List.length chunk) out = png_bytes.
Proof.
  intros Hv H. apply valid_container_inv in Hv.
  destruct Hv as (n & _ & _ & Hn & Hlen & Hn0).
  apply embed_injected in H. destruct H as (chunk & pos & Hi & Hp & ->).
  apply insert_position_inv in Hp.
  destruct Hp as (n' & Hn' & -> & _ & _).
  assert (n' = n) by congruence. subst n'.
  exists n, chunk. split; [exact Hn |]. split; [exact Hi |].
  rewrite cut_point_inside by lia.
  set (pos := Z.to_nat (8 + 4 + 4 + n + 4)). cbv zeta.
  assert (Hpos : (pos <= List.length png_bytes)%nat) by (unfold pos; lia).
  assert (La : List.length (firstn pos png_bytes) = pos).
  { rewrite length_firstn. lia. }
  assert (F : firstn pos (firstn pos png_bytes ++ chunk ++ skipn pos png_bytes)
              = firstn pos png_bytes).
  { apply firstn_app_exact. exact La. }
  assert (K : skipn pos (firstn pos png_bytes ++ chunk ++ skipn pos png_bytes)
              = chunk ++ skipn pos png_bytes).
  { apply skipn_app_exact. exact La. }
  assert (G : skipn (pos + List.length chunk)
                (firstn pos png_bytes ++ chunk ++ skipn pos png_bytes)
              = skipn pos png_bytes).
  { rewrite Nat.add_comm, <- skipn_skipn, K.
    apply skipn_app_exact. reflexivity. }
  repeat split.
  - exact Hpos.
  - exact F.
  - rewrite K. apply firstn_app_exact. reflexivity.
  - exact G.
  - rewrite F, G. apply firstn_skipn.
Qed.

End ChunkLayout.

(** ** The checksum

    A step of the register is a bijection of the 32-bit values, for a bit
    as for a byte, and two different bytes send a register to two
    different values.  So two messages that differ in one byte never have
    the same checksum. *)

Lemma lxor_range (n a b : Z) :
  0 < n -> 0 <= a < 2 ^ n -> 0 <= b < 2 ^ n -> 0 <= Z.lxor a b < 2 ^ n.
Proof.
  intros Hn Ha Hb.
  assert (H0 : 0 <= Z.lxor a b) by (apply Z.lxor_nonneg; lia).
  split; [exact H0 |].
  destruct (Z.eq_dec (Z.lxor a b) 0) as [E | E].
  - rewrite E. apply Z.pow_pos_nonneg; lia.
  - apply Z.log2_lt_pow2; [lia |].
    eapply Z.le_lt_trans; [apply Z.log2_lxor; lia |].
    assert (La : Z.log2 a < n).
    { destruct (Z.eq_dec a 0) as [-> | Na]; [simpl; lia |].
      apply Z.log2_lt_pow2; lia. }
    assert (Lb : Z.log2 b < n).
    { destruct (Z.eq_dec b 0) as [-> | Nb]; [simpl; lia |].
      apply Z.log2_lt_pow2; lia. }
    lia.
Qed.




Lemma shiftr1_range (c : Z) : word32 c -> 0 <= Z.shiftr c 1 < 2 ^ 31.
Proof.
  intros [H0 H1]. rewrite Z.shiftr_div_pow2 by lia.
  change (2 ^ 1) with 2. change (2 ^ 32) with 4294967296 in H1.
  change (2 ^ 31) with 2147483648.
  pose proof (Z.div_mod c 2 ltac:(lia)).
  pose proof (Z.mod_pos_bound c 2 ltac:(lia)). lia.
Qed.

Lemma crc_bit_range (c : Z) : word32 c -> word32 (crc_bit c).
Proof.
  intros Hc. pose proof (shiftr1_range c Hc) as Hs.
  unfold crc_bit, word32. destruct (Z.odd c).
  - apply lxor_range; [lia | |].
    + change (2 ^ 32) with 4294967296. change (2 ^ 31) with 2147483648 in Hs. lia.
    + unfold crc_poly. change (2 ^ 32) with 4294967296. lia.
  - change (2 ^ 32) with 4294967296. change (2 ^ 31) with 2147483648 in Hs. lia.
Qed.



Lemma iter_range (f : Z -> Z) (n : nat) (x : Z) :
  (forall y, word32 y -> word32 (f y)) -> word32 x -> word32 (Nat.iter n f x).
Proof.
  intros Hf Hx. induction n as [| n IH]; simpl; auto.
Qed.


Lemma lxor_byte_range (c : Z) (b : byte) :
  word32 c -> word32 (Z.lxor c (Z_of_byte b)).
Proof.
  intros Hc. apply lxor_range; [lia | exact Hc |].
  pose proof (Z_of_byte_range b). change (2 ^ 32) with 4294967296. lia.
Qed.

Lemma crc_byte_range (c : Z) (b : byte) : word32 c -> word32 (crc_byte c b).
Proof.
  intros Hc. unfold crc_byte.
  apply iter_range; [exact crc_bit_range | apply lxor_byte_range; exact Hc].
Qed.



Lemma crc_update_range (data : bytes) (c : Z) :
  word32 c -> word32 (crc_update c data).
Proof.
  revert c. induction data as [| b data IH]; intros c Hc; simpl.
  - exact Hc.
  - apply IH. apply crc_byte_range. exact Hc.
Qed.



Lemma word32_ones : word32 0xFFFFFFFF.
Proof. unfold word32. change (2 ^ 32) with 4294967296. lia. Qed.

Lemma zlib_crc32_range (data : bytes) : word32 (zlib_crc32 data).
Proof.
  unfold zlib_crc32. apply lxor_range; [lia | |].
  - apply crc_update_range. exact word32_ones.
  - exact word32_ones.
Qed.

(** The mask [& 0xffffffff] of line 178 changes nothing. *)
Lemma crc_mask (data : bytes) :
  Z.land (zlib_crc32 data) 0xffffffff = zlib_crc32 data.
Proof.
  change 0xffffffff with (Z.ones 32).
  rewrite Z.land_ones by lia. apply Z.mod_small. apply zlib_crc32_range.
Qed.



Section Checksum.

Variable compress : bytes -> bytes.


End Checksum.

(** ** Containers the embedder refuses *)

Lemma struct_unpack_I_raises (b : bytes) :
  List.length b <> 4%nat -> struct_unpack_I b = Raise struct_error.
Proof.
  destruct b as [| b3 [| b2 [| b1 [| b0 [| ? ?]]]]]; simpl; intros H;
    try reflexivity. congruence.
Qed.

Lemma struct_unpack_I_returns (b : bytes) :
  List.length b = 4%nat -> exists n, struct_unpack_I b = Ok n.
Proof.
  destruct b as [| b3 [| b2 [| b1 [| b0 [| ? ?]]]]]; simpl; intros H;
    try discriminate. eexists. reflexivity.
Qed.

Lemma insert_position_short (png_bytes : bytes) :
  (List.length png_bytes < 12)%nat ->
  insert_position png_bytes = Raise struct_error.
Proof.
  intros H. unfold insert_position. rewrite slice_between by lia.
  rewrite struct_unpack_I_raises; [reflexivity |].
  rewrite length_firstn, length_skipn. lia.
Qed.

Lemma insert_position_long (png_bytes : bytes) :
  (12 <= List.length png_bytes)%nat ->
  exists pos, insert_position png_bytes = Ok pos.
Proof.
  intros H. unfold insert_position. rewrite slice_between by lia.
  destruct (struct_unpack_I_returns
              (firstn (Z.to_nat (12 - 8)) (skipn (Z.to_nat 8) png_bytes)))
    as [n Hn].
  - rewrite length_firstn, length_skipn. lia.
  - rewrite Hn. simpl. eexists. reflexivity.
Qed.

Section Refusal.

Variable compress : bytes -> bytes.

(** C6, as the program has it.  Once the chunk is built, [embed] raises
    [struct.error] when the input has fewer than 12 bytes (the signature
    and the length field of the first chunk), and returns for every
    input of 12 bytes or more: it looks neither at the signature nor at
    the rest of the header chunk. *)
Theorem embed_refuses_short_input_only (png_bytes : bytes) (h : heap)
    (data : pyval) (chunk : bytes) :
  injected_chunk compress h data = Ok chunk ->
  ((List.length png_bytes < 12)%nat ->
     embed compress png_bytes h data = Raise struct_error)
  /\ ((12 <= List.length png_bytes)%nat ->
        exists out, embed compress png_bytes h data = Ok out).
Proof.
  unfold injected_chunk. intros H. bind_inv H.
  unfold embed. rewrite Ha. simpl. rewrite H. simpl. split; intros Hlen.
  - rewrite insert_position_short by exact Hlen. reflexivity.
  - destruct (insert_position_long _ Hlen) as [pos ->]. simpl.
    eexists. reflexivity.
Qed.

End Refusal.

(** C6, as stated, fails: these sixteen bytes do not begin with the
    signature and are shorter than any header chunk, and [embed] returns
    an output for them. *)
Lemma malformed_container_accepted :
  firstn 8 not_a_png <> png_signature
  /\ valid_container not_a_png = false
  /\ List.length not_a_png = 16%nat
  /\ exists out,
       embed zlib_store not_a_png sample_heap sample_root = Ok out
       /\ firstn 16 out = not_a_png.
Proof.
  split; [vm_compute; discriminate |].
  split; [vm_compute; reflexivity |].
  split; [reflexivity |].
  eexists. split; vm_compute; reflexivity.
Qed.

(** ** The properties on the sample run *)



Lemma size_and_signature_witness :
  embed zlib_store png_1x1 sample_heap sample_root = Ok sample_out
  /\ exists compressed,
       compressed_payload zlib_store sample_heap sample_root = Ok compressed
       /\ Z.of_nat (List.length sample_out)
          = Z.of_nat (List.length png_1x1) + 8 + 1
            + Z.of_nat (List.length compressed) + 4
       /\ firstn 8 sample_out = firstn 8 png_1x1.
Proof.
  assert (H : embed zlib_store png_1x1 sample_heap sample_root = Ok sample_out)
    by (vm_compute; reflexivity).
  split; [exact H |].
  exact (size_and_signature zlib_store _ _ _ _ H).
Defined.

Lemma splice_non_destructive_witness :
  valid_container png_1x1 = true
  /\ embed zlib_store png_1x1 sample_heap sample_root = Ok sample_out
  /\ exists chunk,
       injected_chunk zlib_store sample_heap sample_root = Ok chunk
       /\ firstn 33 sample_out ++ skipn (33 + List.length chunk) sample_out
          = png_1x1.
Proof.
  assert (V : valid_container png_1x1 = true) by (vm_compute; reflexivity).
  assert (H : embed zlib_store png_1x1 sample_heap sample_root = Ok sample_out)
    by (vm_compute; reflexivity).
  split; [exact V |]. split; [exact H |].
  destruct (splice_non_destructive zlib_store _ _ _ _ V H)
    as (n & k & Hn & Hk & Hs).
  assert (n = 13) by (vm_compute in Hn; congruence). subst n.
  exists k. split; [exact Hk |].
  destruct Hs as (_ & _ & _ & _ & _ & Hs). exact Hs.
Defined.


Lemma embed_refuses_short_input_only_witness :
  injected_chunk zlib_store sample_heap sample_root = Ok sample_chunk
  /\ embed zlib_store (firstn 11 png_1x1) sample_heap sample_root
     = Raise struct_error
  /\ exists out, embed zlib_store not_a_png sample_heap sample_root = Ok out.
Proof.
  assert (E : injected_chunk zlib_store sample_heap sample_root
              = Ok sample_chunk) by (vm_compute; reflexivity).
  split; [exact E |]. split.
  - apply (embed_refuses_short_input_only zlib_store (firstn 11 png_1x1)
             _ _ sample_chunk E).
    vm_compute. lia.
  - apply (embed_refuses_short_input_only zlib_store not_a_png
             _ _ sample_chunk E).
    vm_compute. lia.
Defined.

(** ** The serializer *)



Section EncodeEach.

Variable A : Type.
Variable enc : A -> option (result string).



Lemma encode_each_raise (l : list A) (e : exn) :
  encode_each enc l = Some (Raise e) ->
  exists x, In x l /\ enc x = Some (Raise e).
Proof.
  induction l as [| x l IH]; simpl; intros H; [discriminate |].
  destruct (enc x) as [[s | e'] |] eqn:E; try discriminate.
  - destruct (encode_each enc l) as [[ss' | e'] |] eqn:E'; try discriminate.
    injection H as ->. destruct (IH eq_refl) as (y & Hy & Ey). eauto.
  - injection H as ->. eauto.
Qed.

End EncodeEach.



Lemma wrap_raise (l r : string) (parts : option (result (list string)))
    (e : exn) :
  wrap l r parts = Some (Raise e) -> parts = Some (Raise e).
Proof. destruct parts as [[ss | e'] |]; simpl; intros H; congruence. Qed.


Lemma key_text_raise (k : pyval) (e : exn) :
  key_text k = Raise e -> e = TypeError /\ key_ok k = false.
Proof.
  destruct k as [| [|] | | | | |]; simpl; intros H; try discriminate;
    injection H as <-; auto.
Qed.



Lemma encode_item_raise (enc : pyval -> option (result string))
    (kv : pyval * pyval) (e : exn) :
  encode_item enc kv = Some (Raise e) ->
  (e = TypeError /\ key_ok (fst kv) = false)
  \/ enc (snd kv) = Some (Raise e).
Proof.
  unfold encode_item. destruct (key_text (fst kv)) as [k |] eqn:K.
  - destruct (enc (snd kv)) as [[v | e'] |]; try discriminate.
    intros H. injection H as ->. right. reflexivity.
  - intros H. injection H as ->. left. eapply key_text_raise; eauto.
Qed.














Section Serialization.

Variable compress : bytes -> bytes.

Lemma embed_serialization_error (png_bytes : bytes) (h : heap)
    (data : pyval) (e : exn) :
  json_dumps h data = Raise e -> embed compress png_bytes h data = Raise e.
Proof.
  intros H. unfold embed, compressed_payload. rewrite H. reflexivity.
Qed.


End Serialization.




(** ** Extraction *)

Lemma firstn_app_inside {A : Type} (k : nat) (l1 l2 : list A) :
  (k <= List.length l1)%nat -> firstn k (l1 ++ l2) = firstn k l1.
Proof.
  intros H. rewrite firstn_app.
  replace (k - List.length l1)%nat with 0%nat by lia.
  simpl. apply app_nil_r.
Qed.

Lemma skipn_app_inside {A : Type} (k : nat) (l1 l2 : list A) :
  (k <= List.length l1)%nat -> skipn k (l1 ++ l2) = skipn k l1 ++ l2.
Proof.
  intros H. rewrite skipn_app.
  replace (k - List.length l1)%nat with 0%nat by lia. reflexivity.
Qed.

Lemma bytes_eqb_refl (a : bytes) : bytes_eqb a a = true.
Proof.
  induction a as [| x a IH]; simpl; [reflexivity |].
  rewrite IH, Byte.byte_dec_lb; reflexivity.
Qed.

Section FindChunk.

Variable ty : bytes.



End FindChunk.

Section RoundTrip.

Variable compress : bytes -> bytes.
Variable decompress : bytes -> option bytes.
Variable metadata : Type.
Variable deserialize : bytes -> option metadata.



End RoundTrip.




(** ** The fill colour of a region *)


Lemma region_color_cases (level color : pystr) :
  region_color level = Ok color ->
  color = str "#2ecc71" \/ color = str "#f1c40f" \/ color = str "#e74c3c".
Proof.
  unfold region_color, REGION_COLORS. cbn [lookup_str].
  destruct (pystr_eqb (str "low") level);
    [intros H; injection H as <-; auto |].
  destruct (pystr_eqb (str "medium") level);
    [intros H; injection H as <-; auto |].
  destruct (pystr_eqb (str "high") level);
    [intros H; injection H as <-; auto | discriminate].
Qed.

(** C8, as the program has it.  For every region drawn, the red channel of
    the fill colour is the red channel of the severity colour times 0.3
    plus the red channel of the background times 0.7, computed in binary64
    and truncated toward zero, which is the exact value rounded down; and
    each channel of the fill colour lies in [0, 255]. *)
Theorem region_fill_blend (level color : pystr) :
  region_color level = Ok color ->
  exists fg bg fill,
    getrgb color = Ok fg
    /\ getrgb BG_COLOR = Ok bg
    /\ fill_color color = Ok fill
    /\ blend_channel (red fg) (red bg) = Ok (red fill)
    /\ red fill = (3 * red fg + 7 * red bg) / 10
    /\ channel_ok (red fill) && channel_ok (green fill)
       && channel_ok (blue fill) = true.
Proof.
  intros H. apply region_color_cases in H.
  destruct H as [-> | [-> | ->]];
    eexists; eexists; eexists;
    (split; [vm_compute; reflexivity |]);
    (split; [vm_compute; reflexivity |]);
    (split; [vm_compute; reflexivity |]);
    repeat split; vm_compute; reflexivity.
Qed.

Lemma region_fill_blend_witness :
  region_color (str "high") = Ok (str "#e74c3c")
  /\ exists fill,
       fill_color (str "#e74c3c") = Ok fill
       /\ red fill = (3 * 231 + 7 * 26) / 10.
Proof.
  assert (H : region_color (str "high") = Ok (str "#e74c3c"))
    by (vm_compute; reflexivity).
  split; [exact H |].
  destruct (region_fill_blend (str "high") (str "#e74c3c") H)
    as (fg & bg & fill & Hf & Hb & Hfill & _ & Hr & _).
  exists fill. split; [exact Hfill |].
  assert (fg = (231, 76, 60)) by (vm_compute in Hf; congruence).
  assert (bg = (26, 58, 92)) by (vm_compute in Hb; congruence).
  subst fg bg. exact Hr.
Defined.

(** C8, as stated, fails on the regions of severity [high]: the program
    fills them with (87, 41, 36), and the blend with the corresponding
    background channels, rounded to the nearest integer, is (88, 63, 82). *)
Lemma fill_is_not_the_claimed_blend :
  region_color (str "high") = Ok (str "#e74c3c")
  /\ fill_color (str "#e74c3c") = Ok (87, 41, 36)
  /\ claimed_fill (str "#e74c3c") BG_COLOR = Ok (88, 63, 82)
  /\ fill_color (str "#e74c3c") <> claimed_fill (str "#e74c3c") BG_COLOR.
Proof.
  split; [vm_compute; reflexivity |].
  split; [vm_compute; reflexivity |].
  split; [vm_compute; reflexivity |].
  vm_compute. discriminate.
Qed.

(** ** The renderer *)

Lemma map_pixels_good (f : Z -> Z -> rgb -> rgb) (img : canvas) :
  good img -> good (map_pixels f img).
Proof.
  intros (Hw & Hh & Hl). unfold good, map_pixels.
  cbn [cv_width cv_height cv_pixels].
  repeat split; try assumption.
  rewrite length_map, length_combine, length_map, length_seq, Nat.min_id.
  exact Hl.
Qed.

Lemma draw_rectangle_good (box : Z * Z * Z * Z)
    (fill outline : option colorspec) (width : Z) (img : canvas) :
  match fill with Some c => is_ok (ink c) = true | None => True end ->
  match outline with Some c => is_ok (ink c) = true | None => True end ->
  good img ->
  exists img', draw_rectangle box fill outline width img = Ok img' /\ good img'.
Proof.
  intros Hf Ho G. destruct box as [[[x1 y1] x2] y2]. unfold draw_rectangle.
  destruct fill as [c |]; destruct outline as [c' |].
  - destruct (ink c) as [col |]; [| discriminate].
    destruct (ink c') as [col' |]; [| discriminate].
    simpl. eexists. split; [reflexivity |]. auto using map_pixels_good.
  - destruct (ink c) as [col |]; [| discriminate].
    simpl. eexists. split; [reflexivity |]. auto using map_pixels_good.
  - destruct (ink c') as [col' |]; [| discriminate].
    simpl. eexists. split; [reflexivity |]. auto using map_pixels_good.
  - simpl. eauto.
Qed.

Lemma Image_new_good :
  exists img, Image_new WIDTH HEIGHT BG_COLOR = Ok img /\ good img.
Proof.
  unfold Image_new. change (getrgb BG_COLOR) with (@Ok rgb (26, 58, 92)).
  cbn [bind]. eexists. split; [reflexivity |].
  unfold good. cbn [cv_width cv_height cv_pixels].
  split; [reflexivity |]. split; [reflexivity |]. apply repeat_length.
Qed.

Section Rendering.

Variable font : Type.
Variable truetype : string -> Z -> result font.
Variable load_default : font.
Variable text_pixel :
  font -> pystr -> string -> Z * Z -> rgb -> Z -> Z -> rgb -> rgb.

Lemma draw_text_good (xy : Z * Z) (text : pystr) (fill : colorspec)
    (fnt : font) (anchor : string) (img : canvas) :
  is_ok (ink fill) = true -> good img ->
  exists img',
    draw_text font text_pixel xy text fill fnt anchor img = Ok img'
    /\ good img'.
Proof.
  intros Hf G. unfold draw_text. destruct (ink fill); [| discriminate].
  simpl. eexists. split; [reflexivity |]. auto using map_pixels_good.
Qed.

(** One drawing call, run on an image of the right size. *)
Ltac draw :=
  lazymatch goal with
  | G : good ?img
    |- context [bind (draw_text _ _ ?xy ?t ?f ?fn ?an ?img) _] =>
      let img' := fresh "img" in
      let E := fresh "E" in
      let G' := fresh "G" in
      destruct (draw_text_good xy t f fn an img eq_refl G)
        as (img' & E & G');
      rewrite E; clear E G; cbn [bind]
  | G : good ?img
    |- context [bind (draw_rectangle ?b ?f ?o ?w ?img) _] =>
      let img' := fresh "img" in
      let E := fresh "E" in
      let G' := fresh "G" in
      destruct (draw_rectangle_good b f o w img) as (img' & E & G');
      [ first [exact I | reflexivity]
      | first [exact I | reflexivity]
      | exact G | ];
      rewrite E; clear E G; cbn [bind]
  | |- context [bind (fill_color ?c) _] =>
      let r := eval vm_compute in (fill_color c) in
      change (fill_color c) with r; cbn [bind]
  end.

Ltac run :=
  repeat first
    [ draw
    | progress cbn -[draw_text draw_rectangle fill_color Z.add Z.sub Z.div] ].

(** The fonts are the preferred ones when all three load, and the
    default font in all three roles otherwise. *)
Lemma select_fonts_cases :
  select_fonts font truetype load_default
  = match truetype helvetica 24, truetype helvetica 14,
          truetype helvetica 11 with
    | Ok font_large, Ok font_medium, Ok font_small =>
        (font_large, font_medium, font_small)
    | _, _, _ => (load_default, load_default, load_default)
    end.
Proof.
  unfold select_fonts.
  destruct (truetype helvetica 24); [| reflexivity].
  destruct (truetype helvetica 14); [| reflexivity].
  destruct (truetype helvetica 11); reflexivity.
Qed.

Lemma select_fonts_fallback (size : Z) (e : exn) :
  In size [24; 14; 11] ->
  truetype helvetica size = Raise e ->
  select_fonts font truetype load_default
  = (load_default, load_default, load_default).
Proof.
  intros Hs He. rewrite select_fonts_cases.
  destruct Hs as [<- | [<- | [<- | []]]]; rewrite He;
    repeat match goal with
           | |- context [match ?r with Ok _ => _ | Raise _ => _ end] =>
               destruct r
           end; reflexivity.
Qed.

Lemma create_aiip_image_good :
  exists img,
    create_aiip_image font truetype load_default text_pixel = Ok img
    /\ good img.
Proof.
  unfold create_aiip_image.
  destruct Image_new_good as (img0 & -> & G0). cbn [bind].
  destruct (select_fonts font truetype load_default)
    as [[font_large font_medium] font_small].
  run. eexists. split; [reflexivity | assumption].
Qed.

(** C9.  Whatever the host makes of the preferred font file, the
    renderer returns an image, of 800 by 600 pixels, and raises nothing;
    when loading the preferred font fails at any of the three sizes, the
    default font takes all three roles. *)
Theorem renderer_total :
  exists img,
    create_aiip_image font truetype load_default text_pixel = Ok img
    /\ cv_width img = 800
    /\ cv_height img = 600
    /\ List.length (cv_pixels img) = Z.to_nat 480000
    /\ cv_pixels img <> []
    /\ select_fonts font truetype load_default
       = match truetype helvetica 24, truetype helvetica 14,
               truetype helvetica 11 with
         | Ok font_large, Ok font_medium, Ok font_small =>
             (font_large, font_medium, font_small)
         | _, _, _ => (load_default, load_default, load_default)
         end.
Proof.
  destruct create_aiip_image_good as (img & E & Hw & Hh & Hl).
  exists img. repeat split; try assumption.
  - intros N. rewrite N in Hl. simpl in Hl.
    change (WIDTH * HEIGHT) with 480000 in Hl. lia.
  - apply select_fonts_cases.
Qed.

End Rendering.

(** ** More on the splice *)

Lemma prefix_window {A : Type} (pos j k : nat) (l rest : list A) :
  (j + k <= pos)%nat -> (pos <= List.length l)%nat ->
  firstn k (skipn j (firstn pos l ++ rest)) = firstn k (skipn j l).
Proof.
  intros H1 H2.
  rewrite skipn_app_inside by (rewrite length_firstn; lia).
  rewrite firstn_app_inside by (rewrite length_skipn, length_firstn; lia).
  rewrite skipn_firstn_comm, firstn_firstn. f_equal. lia.
Qed.

Lemma bytes_eqb_eq (a b : bytes) : bytes_eqb a b = true <-> a = b.
Proof.
  split; [| intros ->; apply bytes_eqb_refl].
  revert b. induction a as [| x a IH]; intros [| y b]; simpl; try discriminate.
  - reflexivity.
  - intros H. apply andb_true_iff in H. destruct H as [Hx Hy].
    apply Byte.byte_dec_bl in Hx. subst. f_equal. apply IH. exact Hy.
Qed.

Section Splice.

Variable compress : bytes -> bytes.

Lemma embed_valid_splice (png_bytes : bytes) (h : heap) (data : pyval)
    (out : bytes) :
  valid_container png_bytes = true ->
  embed compress png_bytes h data = Ok out ->
  exists ihdr_length chunk,
    struct_unpack_I (firstn 4 (skipn 8 png_bytes)) = Ok ihdr_length
    /\ injected_chunk compress h data = Ok chunk
    /\ 0 <= ihdr_length
    /\ (Z.to_nat (8 + 4 + 4 + ihdr_length + 4) <= List.length png_bytes)%nat
    /\ out = firstn (Z.to_nat (8 + 4 + 4 + ihdr_length + 4)) png_bytes
             ++ chunk
             ++ skipn (Z.to_nat (8 + 4 + 4 + ihdr_length + 4)) png_bytes.
Proof.
  intros Hv H. apply valid_container_inv in Hv.
  destruct Hv as (n & _ & _ & Hn & Hlen & Hn0).
  apply embed_injected in H. destruct H as (chunk & pos & Hi & Hp & ->).
  apply insert_position_inv in Hp.
  destruct Hp as (n' & Hn' & -> & _ & _).
  assert (n' = n) by congruence. subst n'.
  exists n, chunk. rewrite cut_point_inside by lia.
  repeat split; auto. lia.
Qed.

Lemma embed_output_valid (png_bytes : bytes) (h : heap) (data : pyval)
    (out : bytes) :
  valid_container png_bytes = true ->
  embed compress png_bytes h data = Ok out ->
  valid_container out = true.
Proof.
  intros Hv H.
  destruct (embed_valid_splice _ _ _ _ Hv H)
    as (n & chunk & Hn & _ & Hn0 & Hpos & ->).
  apply valid_container_inv in Hv.
  destruct Hv as (n' & Hs & Ht & Hn' & Hlen & _).
  assert (n' = n) by congruence. subst n'.
  set (pos := Z.to_nat (8 + 4 + 4 + n + 4)) in *.
  set (rest := chunk ++ skipn pos png_bytes).
  unfold valid_container.
  change (firstn 8 (firstn pos png_bytes ++ rest))
    with (firstn 8 (skipn 0 (firstn pos png_bytes ++ rest))).
  rewrite !prefix_window by (unfold pos; lia).
  simpl skipn at 1. rewrite Hs, Ht, Hn, !bytes_eqb_refl.
  rewrite !andb_true_l. apply Z.leb_le. unfold rest. rewrite !length_app, length_firstn, length_skipn.
  unfold pos in *. lia.
Qed.

(** Embedding keeps a valid container valid, with the signature and the
    header chunk where they were, so that a further chunk would go to the
    same place. *)
Theorem embed_keeps_valid (png_bytes : bytes) (h : heap) (data : pyval)
    (out : bytes) :
  valid_container png_bytes = true ->
  embed compress png_bytes h data = Ok out ->
  valid_container out = true
  /\ insert_position out = insert_position png_bytes.
Proof.
  intros Hv H. split; [exact (embed_output_valid _ _ _ _ Hv H) |].
  destruct (embed_valid_splice _ _ _ _ Hv H)
    as (n & chunk & Hn & _ & Hn0 & Hpos & ->).
  unfold insert_position. rewrite !slice_between by lia.
  change (Z.to_nat (12 - 8)) with 4%nat. change (Z.to_nat 8) with 8%nat.
  rewrite prefix_window by lia. reflexivity.
Qed.

(** Embedding twice: the second chunk goes in front of the first, both
    between the header chunk and the rest of the container. *)
Theorem embed_twice (png_bytes : bytes) (h1 h2 : heap) (data1 data2 : pyval)
    (out1 out2 : bytes) :
  valid_container png_bytes = true ->
  embed compress png_bytes h1 data1 = Ok out1 ->
  embed compress out1 h2 data2 = Ok out2 ->
  exists ihdr_length chunk1 chunk2,
    struct_unpack_I (firstn 4 (skipn 8 png_bytes)) = Ok ihdr_length
    /\ injected_chunk compress h1 data1 = Ok chunk1
    /\ injected_chunk compress h2 data2 = Ok chunk2
    /\ out2 = firstn (Z.to_nat (8 + 4 + 4 + ihdr_length + 4)) png_bytes
              ++ chunk2 ++ chunk1
              ++ skipn (Z.to_nat (8 + 4 + 4 + ihdr_length + 4)) png_bytes.
Proof.
  intros Hv H1 H2.
  pose proof (embed_output_valid _ _ _ _ Hv H1) as Hv1.
  destruct (embed_valid_splice _ _ _ _ Hv H1)
    as (n & chunk1 & Hn & Hc1 & Hn0 & Hpos & E1).
  destruct (embed_valid_splice _ _ _ _ Hv1 H2)
    as (n' & chunk2 & Hn' & Hc2 & _ & _ & E2).
  set (pos := Z.to_nat (8 + 4 + 4 + n + 4)) in *.
  assert (W : firstn 4 (skipn 8 out1) = firstn 4 (skipn 8 png_bytes)).
  { rewrite E1. apply prefix_window; unfold pos; lia. }
  rewrite W in Hn'. assert (n' = n) by congruence. subst n'.
  fold pos in E2.
  exists n, chunk1, chunk2. repeat split; auto.
  rewrite E2, E1.
  rewrite firstn_app_exact by (rewrite length_firstn; lia).
  rewrite skipn_app_exact by (rewrite length_firstn; lia).
  reflexivity.
Qed.

(** A first chunk that claims more bytes than the input has: the new
    chunk is put at the end, after all the bytes of the input. *)
Theorem embed_appends_after_short_header (png_bytes : bytes) (h : heap)
    (data : pyval) (out : bytes) (pos : Z) :
  insert_position png_bytes = Ok pos ->
  Z.of_nat (List.length png_bytes) <= pos ->
  embed compress png_bytes h data = Ok out ->
  exists chunk,
    injected_chunk compress h data = Ok chunk /\ out = png_bytes ++ chunk.
Proof.
  intros Hp Hlen H.
  apply embed_injected in H. destruct H as (chunk & pos' & Hi & Hp' & ->).
  assert (pos' = pos) by congruence. subst pos'.
  exists chunk. split; [exact Hi |].
  assert (C : cut_point png_bytes pos = List.length png_bytes).
  { unfold cut_point.
    apply insert_position_inv in Hp. destruct Hp as (n & _ & -> & Hn & _).
    rewrite clamp_index_nonneg by lia. rewrite Z.min_r by lia. lia. }
  rewrite C, firstn_all, skipn_all, app_nil_r. reflexivity.
Qed.

End Splice.

(** ** Packing and unpacking *)

Lemma byte_of_Z_low (q : Z) (b : byte) : byte_of_Z (256 * q + Z_of_byte b) = b.
Proof.
  unfold byte_of_Z.
  replace ((256 * q + Z_of_byte b) mod 256) with (Z_of_byte b).
  - unfold Z_of_byte. rewrite N2Z.id, Byte.of_to_N. reflexivity.
  - pose proof (Z_of_byte_range b).
    rewrite Z.add_comm, Z.mul_comm, Z.mod_add by lia.
    symmetry. apply Z.mod_small. lia.
Qed.

(** [struct.pack('>I', n)] and [struct.unpack('>I', b)] are inverse to
    each other: a number packs to four bytes exactly when those bytes
    unpack to it. *)
Theorem struct_pack_unpack_inverse (n : Z) (b : bytes) :
  struct_pack_I n = Ok b <-> struct_unpack_I b = Ok n.
Proof.
  split; [apply struct_unpack_pack |].
  intros H. pose proof (struct_unpack_I_inv _ _ H) as [_ Hr].
  rewrite struct_pack_I_ok by exact Hr.
  destruct b as [| b3 [| b2 [| b1 [| b0 [| ? ?]]]]]; try discriminate.
  unfold struct_unpack_I in H. injection H as <-.
  pose proof (Z_of_byte_range b3). pose proof (Z_of_byte_range b2).
  pose proof (Z_of_byte_range b1). pose proof (Z_of_byte_range b0).
  rewrite !Z.shiftr_div_pow2 by lia.
  change (2 ^ 24) with 16777216. change (2 ^ 16) with 65536.
  change (2 ^ 8) with 256.
  change (Z.pow_pos 2 24) with 16777216. change (Z.pow_pos 2 16) with 65536.
  change (Z.pow_pos 2 8) with 256.
  set (v3 := Z_of_byte b3) in *. set (v2 := Z_of_byte b2) in *.
  set (v1 := Z_of_byte b1) in *. set (v0 := Z_of_byte b0) in *.
  assert (E3 : (v3 * 16777216 + v2 * 65536 + v1 * 256 + v0) / 16777216
               = 256 * 0 + v3).
  { symmetry. apply Z.div_unique with (r := v2 * 65536 + v1 * 256 + v0); lia. }
  assert (E2 : (v3 * 16777216 + v2 * 65536 + v1 * 256 + v0) / 65536
               = 256 * v3 + v2).
  { symmetry. apply Z.div_unique with (r := v1 * 256 + v0); lia. }
  assert (E1 : (v3 * 16777216 + v2 * 65536 + v1 * 256 + v0) / 256
               = 256 * (256 * v3 + v2) + v1).
  { symmetry. apply Z.div_unique with (r := v0); lia. }
  assert (E0 : v3 * 16777216 + v2 * 65536 + v1 * 256 + v0
               = 256 * (65536 * v3 + 256 * v2 + v1) + v0) by lia.
  rewrite E3, E2, E1, E0.
  unfold v3, v2, v1, v0. rewrite !byte_of_Z_low. reflexivity.
Qed.

Section Outcome.

Variable compress : bytes -> bytes.

Lemma injected_chunk_inv (h : heap) (data : pyval) (chunk : bytes) :
  injected_chunk compress h data = Ok chunk ->
  exists json_str,
    json_dumps h data = Ok json_str
    /\ build_chunk (compress (encode_utf8 json_str)) = Ok chunk.
Proof.
  unfold injected_chunk, compressed_payload. intros H.
  bind_inv H. bind_inv Ha. injection Ha as <-. eauto.
Qed.

Lemma build_chunk_returns (compressed : bytes) :
  1 + Z.of_nat (List.length compressed) < 2 ^ 32 ->
  exists chunk, build_chunk compressed = Ok chunk.
Proof.
  intros H. unfold build_chunk.
  rewrite (struct_pack_I_ok (Z.of_nat (List.length (x01 :: compressed))))
    by (simpl List.length; lia).
  cbn [bind]. rewrite crc_mask.
  rewrite struct_pack_I_ok by apply zlib_crc32_range.
  cbn [bind]. eexists. reflexivity.
Qed.

(** [embed] returns exactly when the metadata is serialized, the payload
    with its tag byte fits a 32-bit length, and the input has the 12 bytes
    that are read from it. *)
Theorem embed_returns_iff (png_bytes : bytes) (h : heap) (data : pyval) :
  (exists out, embed compress png_bytes h data = Ok out)
  <-> (exists json_str,
         json_dumps h data = Ok json_str
         /\ 1 + Z.of_nat (List.length (compress (encode_utf8 json_str)))
            < 2 ^ 32)
      /\ (12 <= List.length png_bytes)%nat.
Proof.
  split.
  - intros [out H]. apply embed_inv in H.
    destruct H as (compressed & chunk & pos & Hc & Hb & Hp & _).
    unfold compressed_payload in Hc. bind_inv Hc. injection Hc as <-.
    apply build_chunk_inv in Hb. destruct Hb as (lf & _ & Hl & _).
    apply struct_pack_I_inv in Hl. destruct Hl as [Hl _].
    apply insert_position_inv in Hp. destruct Hp as (n & _ & _ & _ & Hlen).
    split; [exists a; split; [assumption | lia] | exact Hlen].
  - intros [(s & Hs & Hl) Hlen].
    destruct (build_chunk_returns _ Hl) as [chunk Hb].
    destruct (insert_position_long _ Hlen) as [pos Hp].
    unfold embed, compressed_payload. rewrite Hs. cbn [bind].
    rewrite Hb. cbn [bind]. rewrite Hp. cbn [bind]. eexists. reflexivity.
Qed.

(** The output of [embed] tells the container and the chunk: two valid
    containers, with whatever metadata, never give the same output unless
    they are the same container and the chunks are the same. *)
Theorem embed_injective (png1 png2 : bytes) (h1 h2 : heap)
    (data1 data2 : pyval) (out : bytes) :
  valid_container png1 = true ->
  valid_container png2 = true ->
  embed compress png1 h1 data1 = Ok out ->
  embed compress png2 h2 data2 = Ok out ->
  png1 = png2
  /\ injected_chunk compress h1 data1 = injected_chunk compress h2 data2.
Proof.
  intros V1 V2 H1 H2.
  destruct (embed_valid_splice _ _ _ _ _ V1 H1)
    as (n1 & c1 & Hn1 & Hc1 & Hn10 & Hp1 & E1).
  destruct (embed_valid_splice _ _ _ _ _ V2 H2)
    as (n2 & c2 & Hn2 & Hc2 & Hn20 & Hp2 & E2).
  assert (W1 : firstn 4 (skipn 8 out) = firstn 4 (skipn 8 png1)).
  { rewrite E1. apply prefix_window; lia. }
  assert (W2 : firstn 4 (skipn 8 out) = firstn 4 (skipn 8 png2)).
  { rewrite E2. apply prefix_window; lia. }
  assert (n2 = n1) by congruence. subst n2.
  set (pos := Z.to_nat (8 + 4 + 4 + n1 + 4)) in *.
  assert (A : firstn pos png1 = firstn pos png2).
  { rewrite <- (firstn_app_exact pos (firstn pos png1) (c1 ++ skipn pos png1))
      by (rewrite length_firstn; lia).
    rewrite <- E1, E2. apply firstn_app_exact. rewrite length_firstn. lia. }
  assert (B : c1 ++ skipn pos png1 = c2 ++ skipn pos png2).
  { rewrite <- (skipn_app_exact pos (firstn pos png1) (c1 ++ skipn pos png1))
      by (rewrite length_firstn; lia).
    rewrite <- E1, E2. apply skipn_app_exact. rewrite length_firstn. lia. }
  destruct (injected_chunk_inv _ _ _ Hc1) as (s1 & _ & Hb1).
  destruct (injected_chunk_inv _ _ _ Hc2) as (s2 & _ & Hb2).
  pose proof (build_chunk_layout _ _ Hb1) as (L1 & _ & _ & _ & K1).
  pose proof (build_chunk_layout _ _ Hb2) as (L2 & _ & _ & _ & K2).
  apply struct_unpack_pack in L1. apply struct_unpack_pack in L2.
  assert (F : firstn 4 c1 = firstn 4 c2).
  { rewrite <- (firstn_app_inside 4 c1 (skipn pos png1)) by lia.
    rewrite B. apply firstn_app_inside. lia. }
  rewrite F in L1.
  assert (K : List.length c1 = List.length c2).
  { assert (Q : Ok (1 + Z.of_nat (List.length (compress (encode_utf8 s1))))
                = Ok (1 + Z.of_nat (List.length (compress (encode_utf8 s2)))))
      by congruence.
    assert (Q' : 1 + Z.of_nat (List.length (compress (encode_utf8 s1)))
                 = 1 + Z.of_nat (List.length (compress (encode_utf8 s2))))
      by congruence.
    lia. }
  assert (C : c1 = c2).
  { rewrite <- (firstn_app_exact (List.length c1) c1 (skipn pos png1) eq_refl).
    rewrite B. apply firstn_app_exact. symmetry. exact K. }
  subst c2. apply app_inv_head in B.
  split; [| congruence].
  rewrite <- (firstn_skipn pos png1), <- (firstn_skipn pos png2). congruence.
Qed.

End Outcome.

(** ** Chunk records *)

Lemma chunk_records_ok_step (fuel : nat) (b : bytes) :
  b <> [] ->
  chunk_records_ok (Datatypes.S fuel) b =
  match struct_unpack_I (firstn 4 b) with
  | Raise _ => false
  | Ok len =>
      if Z.of_nat (List.length b) <? 4 + 4 + len + 4 then false
      else
        match struct_unpack_I (firstn 4 (skipn (8 + Z.to_nat len) b)) with
        | Ok crc =>
            if crc =? zlib_crc32 (firstn 4 (skipn 4 b)
                                  ++ firstn (Z.to_nat len) (skipn 8 b))
            then chunk_records_ok fuel (skipn (12 + Z.to_nat len) b)
            else false
        | Raise _ => false
        end
  end.
Proof. destruct b; [congruence | reflexivity]. Qed.

Lemma chunk_records_ok_more (fuel : nat) :
  forall b, chunk_records_ok fuel b = true ->
            chunk_records_ok (Datatypes.S fuel) b = true.
Proof.
  induction fuel as [| fuel IH]; intros b H.
  - destruct b; [reflexivity | discriminate].
  - destruct b as [| x b]; [reflexivity |].
    rewrite chunk_records_ok_step in H by discriminate.
    rewrite chunk_records_ok_step by discriminate.
    destruct (struct_unpack_I (firstn 4 (x :: b))) as [len |]; [| discriminate].
    destruct (Z.of_nat (List.length (x :: b)) <? 4 + 4 + len + 4);
      [discriminate |].
    destruct (struct_unpack_I (firstn 4 (skipn (8 + Z.to_nat len) (x :: b))))
      as [crc |]; [| discriminate].
    destruct (crc =? _); [| discriminate].
    apply IH. exact H.
Qed.

Lemma chunk_records_ok_le (fuel fuel' : nat) (b : bytes) :
  (fuel <= fuel')%nat -> chunk_records_ok fuel b = true ->
  chunk_records_ok fuel' b = true.
Proof.
  intros Hle H. induction Hle; [exact H |].
  apply chunk_records_ok_more. assumption.
Qed.

(** A whole record in front of a sequence is checked and stepped over. *)
Lemma chunk_records_ok_record (fuel : nat) (rec rest : bytes) (len : Z) :
  struct_unpack_I (firstn 4 rec) = Ok len ->
  List.length rec = Z.to_nat (4 + 4 + len + 4) ->
  struct_unpack_I (firstn 4 (skipn (8 + Z.to_nat len) rec))
  = Ok (zlib_crc32 (firstn 4 (skipn 4 rec)
                    ++ firstn (Z.to_nat len) (skipn 8 rec))) ->
  chunk_records_ok (Datatypes.S fuel) (rec ++ rest)
  = chunk_records_ok fuel rest.
Proof.
  intros Hn Hl Hc.
  pose proof (struct_unpack_I_inv _ _ Hn) as [_ Hr].
  rewrite chunk_records_ok_step
    by (intros E; apply (f_equal (@List.length byte)) in E;
        rewrite length_app in E; simpl in E; lia).
  rewrite firstn_app_inside by lia. rewrite Hn.
  replace (Z.of_nat (List.length (rec ++ rest)) <? 4 + 4 + len + 4) with false
    by (symmetry; apply Z.ltb_ge; rewrite length_app; lia).
  rewrite (skipn_app_inside (8 + Z.to_nat len)) by lia.
  rewrite (firstn_app_inside 4) by (rewrite length_skipn; lia).
  rewrite Hc.
  rewrite (skipn_app_inside 4) by lia.
  rewrite (firstn_app_inside 4) by (rewrite length_skipn; lia).
  rewrite (skipn_app_inside 8) by lia.
  rewrite (firstn_app_inside (Z.to_nat len)) by (rewrite length_skipn; lia).
  rewrite Z.eqb_refl.
  rewrite skipn_app_exact by lia. reflexivity.
Qed.

Lemma window_of_prefix {A : Type} (p j k : nat) (l : list A) :
  (j + k <= p)%nat ->
  firstn k (skipn j (firstn p l)) = firstn k (skipn j l).
Proof.
  intros H. rewrite skipn_firstn_comm, firstn_firstn. f_equal. lia.
Qed.

Section WellFormed.

Variable compress : bytes -> bytes.

(** The chunk that [embed] builds is a well-formed chunk record. *)
Lemma injected_chunk_record (compressed chunk : bytes) :
  build_chunk compressed = Ok chunk ->
  let len := 1 + Z.of_nat (List.length compressed) in
  struct_unpack_I (firstn 4 chunk) = Ok len
  /\ List.length chunk = Z.to_nat (4 + 4 + len + 4)
  /\ struct_unpack_I (firstn 4 (skipn (8 + Z.to_nat len) chunk))
     = Ok (zlib_crc32 (firstn 4 (skipn 4 chunk)
                       ++ firstn (Z.to_nat len) (skipn 8 chunk))).
Proof.
  intros Hb len.
  pose proof (build_chunk_layout _ _ Hb) as (Hl & Ht & Hd & Hk & Hlen).
  rewrite crc_mask in Hk.
  apply struct_unpack_pack in Hl. apply struct_unpack_pack in Hk.
  assert (E : (8 + Z.to_nat len = List.length chunk - 4)%nat)
    by (unfold len; lia).
  assert (D : Z.to_nat len = (List.length chunk - 12)%nat)
    by (unfold len; lia).
  split; [exact Hl |]. split; [unfold len; lia |].
  rewrite E. fold (checksum_field chunk).
  rewrite firstn_all2
    by (unfold checksum_field; rewrite length_skipn; lia).
  rewrite D. fold (data_field chunk). rewrite Ht, Hd. exact Hk.
Qed.

(** Embedding keeps a well-formed container well formed: the output is
    again the signature followed by chunk records whose length and
    checksum fields are right. *)
Theorem embed_keeps_well_formed (png_bytes : bytes) (h : heap)
    (data : pyval) (out : bytes) :
  png_well_formed png_bytes = true ->
  embed compress png_bytes h data = Ok out ->
  png_well_formed out = true.
Proof.
  intros Hw H. unfold png_well_formed in Hw.
  apply andb_true_iff in Hw. destruct Hw as [Hsig Hrec].
  apply embed_inv in H.
  destruct H as (compressed & chunk & pos & _ & Hb & Hp & ->).
  apply insert_position_inv in Hp. destruct Hp as (n & Hn & -> & Hn0 & Hlong).
  destruct (injected_chunk_record _ _ Hb) as (C1 & C2 & C3).
  set (b := skipn 8 png_bytes) in *.
  assert (Lb : List.length b = (List.length png_bytes - 8)%nat)
    by (unfold b; apply length_skipn).
  destruct (List.length png_bytes) as [| f0] eqn:Lp; [lia |].
  rewrite chunk_records_ok_step in Hrec
    by (intros E; rewrite E in Lb; simpl in Lb; lia).
  rewrite Hn in Hrec.
  destruct (Z.of_nat (List.length b) <? 4 + 4 + n + 4) eqn:Hfit;
    [discriminate |].
  apply Z.ltb_ge in Hfit.
  destruct (struct_unpack_I (firstn 4 (skipn (8 + Z.to_nat n) b)))
    as [crc |] eqn:Hcrc; [| discriminate].
  destruct (crc =? zlib_crc32 (firstn 4 (skipn 4 b)
                               ++ firstn (Z.to_nat n) (skipn 8 b))) eqn:Hq;
    [| discriminate].
  apply Z.eqb_eq in Hq. subst crc.
  rewrite cut_point_inside by lia.
  set (p := Z.to_nat (8 + 4 + 4 + n + 4)).
  set (rest := skipn p png_bytes).
  assert (Rest : skipn (12 + Z.to_nat n) b = rest).
  { unfold b, rest. rewrite skipn_skipn. f_equal. unfold p. lia. }
  rewrite Rest in Hrec.
  set (header := firstn (12 + Z.to_nat n) b).
  assert (Hd : skipn 8 (firstn p png_bytes) = header).
  { unfold header, b. rewrite skipn_firstn_comm. f_equal. unfold p. lia. }
  assert (Lh : List.length header = Z.to_nat (4 + 4 + n + 4)).
  { unfold header. rewrite length_firstn. lia. }
  unfold png_well_formed. apply andb_true_iff. split.
  - rewrite firstn_app_inside by (rewrite length_firstn; unfold p; lia).
    rewrite firstn_firstn. replace (Nat.min 8 p) with 8%nat by (unfold p; lia).
    exact Hsig.
  - rewrite skipn_app_inside by (rewrite length_firstn; unfold p; lia).
    rewrite Hd.
    assert (Lo : exists f1,
              List.length (firstn p png_bytes ++ chunk ++ rest)
              = Datatypes.S (Datatypes.S f1) /\ (f0 <= f1)%nat).
    { exists (f0 + (List.length chunk - 1))%nat.
      rewrite !length_app, length_firstn. unfold rest.
      rewrite length_skipn. unfold p. lia. }
    destruct Lo as (f1 & -> & Hf).
    rewrite (chunk_records_ok_record _ header (chunk ++ rest) n).
    + rewrite (chunk_records_ok_record _ chunk rest _ C1 C2 C3).
      eapply chunk_records_ok_le; eauto.
    + unfold header. rewrite firstn_firstn.
      replace (Nat.min 4 (12 + Z.to_nat n)) with 4%nat by lia. exact Hn.
    + exact Lh.
    + unfold header. rewrite !window_of_prefix by lia. exact Hcrc.
Qed.

End WellFormed.

(** ** Tuples and lists *)

Lemma encode_each_ext {A : Type} (f g : A -> option (result string))
    (l : list A) :
  (forall x, f x = g x) -> encode_each f l = encode_each g l.
Proof.
  intros E. induction l as [| x l IH]; simpl; [reflexivity |].
  rewrite E, IH. reflexivity.
Qed.

Lemma encode_item_ext (f g : pyval -> option (result string))
    (kv : pyval * pyval) :
  (forall x, f x = g x) -> encode_item f kv = encode_item g kv.
Proof. intros E. unfold encode_item. rewrite E. reflexivity. Qed.

Lemma iterencode_tuple_as_list (fuel : nat) (h : heap) :
  forall (markers : list nat) (o : pyval),
    iterencode fuel (List.map tuple_as_list h) markers o
    = iterencode fuel h markers o.
Proof.
  induction fuel as [| fuel IH]; intros markers o; [reflexivity |].
  simpl. destruct o as [| [|] | | | | a |]; try reflexivity.
  rewrite nth_error_map.
  destruct (nth_error h a) as [[l | l | items] |]; simpl; try reflexivity.
  - destruct l; [reflexivity |]. destruct (marked a markers); [reflexivity |].
    f_equal. apply encode_each_ext. intros x. apply IH.
  - destruct l; [reflexivity |]. destruct (marked a markers); [reflexivity |].
    f_equal. apply encode_each_ext. intros x. apply IH.
  - destruct items; [reflexivity |].
    destruct (marked a markers); [reflexivity |].
    f_equal. apply encode_each_ext. intros x.
    apply encode_item_ext. intros y. apply IH.
Qed.

(** The serializer, and so the embedder, makes no difference between a
    tuple and a list: turning every tuple of a structure into a list
    changes neither the text nor the output. *)
Theorem embed_ignores_tuples (compress : bytes -> bytes) (png_bytes : bytes)
    (h : heap) (data : pyval) :
  json_dumps (List.map tuple_as_list h) data = json_dumps h data
  /\ embed compress png_bytes (List.map tuple_as_list h) data
     = embed compress png_bytes h data.
Proof.
  assert (E : json_dumps (List.map tuple_as_list h) data = json_dumps h data).
  { unfold json_dumps. rewrite length_map, iterencode_tuple_as_list.
    reflexivity. }
  split; [exact E |].
  unfold embed, compressed_payload. rewrite E. reflexivity.
Qed.

(** ** The fill colour of any colour text *)


Lemma Ok_inj {A : Type} (a b : A) : Ok a = Ok b -> a = b.
Proof. congruence. Qed.



(** ** The two rectangles of a region *)

Lemma nth_error_indexed (g : Z * rgb -> rgb) (px : list rgb) :
  forall (s i : nat),
    nth_error (List.map g (combine (List.map Z.of_nat (seq s (List.length px))) px)) i
    = option_map (fun p => g (Z.of_nat (s + i), p)) (nth_error px i).
Proof.
  induction px as [| p px IH]; intros s i.
  - destruct i; reflexivity.
  - destruct i as [| i]; simpl.
    + rewrite Nat.add_0_r. reflexivity.
    + rewrite IH. replace (Datatypes.S s + i)%nat with (s + Datatypes.S i)%nat by lia.
      reflexivity.
Qed.

(** A drawing call sets the pixel at [(x, y)] from its old value. *)
Lemma pixel_at_map_pixels (f : Z -> Z -> rgb -> rgb) (img : canvas) (x y : Z) :
  pixel_at (map_pixels f img) x y = option_map (f x y) (pixel_at img x y).
Proof.
  unfold pixel_at, map_pixels. cbn [cv_width cv_pixels].
  destruct ((0 <=? x) && (x <? cv_width img) && (0 <=? y)) eqn:E;
    [| reflexivity].
  apply andb_true_iff in E. destruct E as [E Hy].
  apply andb_true_iff in E. destruct E as [Hx0 Hxw].
  apply Z.leb_le in Hx0. apply Z.leb_le in Hy. apply Z.ltb_lt in Hxw.
  rewrite nth_error_indexed. cbn [fst snd]. simpl Nat.add.
  rewrite Z2Nat.id by nia.
  replace ((y * cv_width img + x) mod cv_width img) with x.
  - replace ((y * cv_width img + x) / cv_width img) with y; [reflexivity |].
    rewrite Z.add_comm, Z.div_add by lia.
    rewrite Z.div_small by lia. reflexivity.
  - rewrite Z.add_comm, Z.mod_add by lia.
    symmetry. apply Z.mod_small. lia.
Qed.

(** Lines 115 and 120: after the outline of width 2 and the fill inset by
    2, a pixel strictly inside the box has the fill colour, a pixel of the
    box within 2 of its border has the outline colour, and a pixel outside
    the box is as it was: the fill never paints over the outline and
    leaves no gap. *)
Theorem region_box_painted (img img1 img2 : canvas) (x1 y1 x2 y2 : Z)
    (outline fill : colorspec) (oc fc old : rgb) (x y : Z) :
  ink outline = Ok oc ->
  ink fill = Ok fc ->
  draw_rectangle (x1, y1, x2, y2) None (Some outline) 2 img = Ok img1 ->
  draw_rectangle (x1 + 2, y1 + 2, x2 - 2, y2 - 2) (Some fill) None 1 img1
  = Ok img2 ->
  pixel_at img x y = Some old ->
  pixel_at img2 x y
  = Some (if in_box (x1 + 2) (y1 + 2) (x2 - 2) (y2 - 2) x y then fc
          else if in_box x1 y1 x2 y2 x y then oc
          else old).
Proof.
  intros Ho Hf H1 H2 Hp.
  unfold draw_rectangle in H1, H2. rewrite Ho in H1. rewrite Hf in H2.
  cbn [bind] in H1, H2. apply Ok_inj in H1. apply Ok_inj in H2.
  subst img2 img1. rewrite !pixel_at_map_pixels, Hp. cbn [option_map].
  f_equal.
  destruct (in_box (x1 + 2) (y1 + 2) (x2 - 2) (y2 - 2) x y); [reflexivity |].
  rewrite andb_true_r. reflexivity.
Qed.

(** ** The entry point *)

Section Main.

Variable font : Type.
Variable truetype : string -> Z -> result font.
Variable load_default : font.
Variable text_pixel :
  font -> pystr -> string -> Z * Z -> rgb -> Z -> Z -> rgb -> rgb.
Variable compress : bytes -> bytes.
Variable save_png : canvas -> bytes.
Variable writable : string -> bool.

Lemma read_file_other (w : world) (path p : string) (data : bytes) :
  p <> path ->
  read_file (files (write_file w path data)) p = read_file (files w) p.
Proof.
  intros H. unfold write_file. cbn [files read_file].
  destruct (String.eqb path p) eqn:E; [| reflexivity].
  apply String.eqb_eq in E. congruence.
Qed.

(** When [main] returns, it has written one file, [sample.aiip], whose
    contents are the output of the embedder on the rendered image and the
    envelope; every other file is as it was, and the size printed is the
    size of that file. *)
Theorem main_writes_the_embedding (w w' : world) :
  main font truetype load_default text_pixel compress save_png writable w
  = (w', Ok tt) ->
  exists img out,
    create_aiip_image font truetype load_default text_pixel = Ok img
    /\ embed compress (save_png img) (heap_of aiip_data) (root_of aiip_data)
       = Ok out
    /\ read_file (files w') "sample.aiip" = Some out
    /\ (forall p, p <> "sample.aiip"%string ->
                  read_file (files w') p = read_file (files w) p)
    /\ stdout w'
       = stdout w
         ++ [ "Creating AIIP image..."; "Created: sample.aiip";
              "Size: " ++ format_commas (Z.of_nat (List.length out))
              ++ " bytes";
              ""; "This file can be opened with ANY image viewer.";
              "Rename to .png if needed: mv sample.aiip sample.png";
              ""; "All content is visible directly in the image!" ]%string.
Proof.
  unfold main. intros H.
  destruct (create_aiip_image font truetype load_default text_pixel)
    as [img |] eqn:E; [| discriminate].
  unfold embed_aiip_chunk in H.
  destruct (embed compress (save_png img) (heap_of aiip_data)
              (root_of aiip_data)) as [out |] eqn:E'; [| discriminate].
  destruct (writable "sample.aiip"); [| discriminate].
  injection H as <-. exists img, out.
  split; [reflexivity |]. split; [exact E' |].
  split; [reflexivity |]. split.
  - intros p Hp. cbn [print files].
    apply (read_file_other (print w "Creating AIIP image...") "sample.aiip").
    exact Hp.
  - cbn [print stdout write_file]. rewrite <- !app_assoc. reflexivity.
Qed.


End Main.

(** ** The further properties on sample runs *)

Lemma embed_keeps_valid_witness :
  (valid_container png_1x1 = true
   /\ embed zlib_store png_1x1 sample_heap sample_root = Ok sample_out)
  /\ valid_container sample_out = true
  /\ insert_position sample_out = insert_position png_1x1.
Proof.
  assert (V : valid_container png_1x1 = true) by (vm_compute; reflexivity).
  assert (H : embed zlib_store png_1x1 sample_heap sample_root = Ok sample_out)
    by (vm_compute; reflexivity).
  split; [split; assumption |].
  exact (embed_keeps_valid zlib_store _ _ _ _ V H).
Defined.

Lemma embed_twice_witness :
  (valid_container png_1x1 = true
   /\ embed zlib_store png_1x1 sample_heap sample_root = Ok sample_out
   /\ embed zlib_store sample_out (heap_of numbered_envelope)
        (root_of numbered_envelope) = Ok sample_out2)
  /\ exists chunk1 chunk2,
       injected_chunk zlib_store sample_heap sample_root = Ok chunk1
       /\ injected_chunk zlib_store (heap_of numbered_envelope)
            (root_of numbered_envelope) = Ok chunk2
       /\ sample_out2
          = firstn 33 png_1x1 ++ chunk2 ++ chunk1 ++ skipn 33 png_1x1.
Proof.
  assert (V : valid_container png_1x1 = true) by (vm_compute; reflexivity).
  assert (H1 : embed zlib_store png_1x1 sample_heap sample_root = Ok sample_out)
    by (vm_compute; reflexivity).
  assert (H2 : embed zlib_store sample_out (heap_of numbered_envelope)
                 (root_of numbered_envelope) = Ok sample_out2)
    by (vm_compute; reflexivity).
  split; [repeat split; assumption |].
  destruct (embed_twice zlib_store _ _ _ _ _ _ _ V H1 H2)
    as (n & c1 & c2 & Hn & Hc1 & Hc2 & E).
  assert (n = 13) by (vm_compute in Hn; congruence). subst n.
  exists c1, c2. auto.
Defined.

Lemma embed_appends_after_short_header_witness :
  (insert_position not_a_png = Ok 1730175368
   /\ Z.of_nat (List.length not_a_png) <= 1730175368)
  /\ exists out chunk,
       embed zlib_store not_a_png sample_heap sample_root = Ok out
       /\ injected_chunk zlib_store sample_heap sample_root = Ok chunk
       /\ out = not_a_png ++ chunk.
Proof.
  assert (P : insert_position not_a_png = Ok 1730175368)
    by (vm_compute; reflexivity).
  assert (L : Z.of_nat (List.length not_a_png) <= 1730175368)
    by (vm_compute; discriminate).
  split; [split; assumption |].
  destruct (embed zlib_store not_a_png sample_heap sample_root) as [out |] eqn:H;
    [| vm_compute in H; discriminate].
  destruct (embed_appends_after_short_header zlib_store _ _ _ _ _ P L H)
    as (chunk & Hc & E).
  exists out, chunk. auto.
Defined.

Lemma struct_pack_unpack_inverse_witness :
  struct_unpack_I [x00; x00; x00; x0d] = Ok 13
  /\ struct_pack_I 13 = Ok [x00; x00; x00; x0d].
Proof.
  assert (U : struct_unpack_I [x00; x00; x00; x0d] = Ok 13)
    by (vm_compute; reflexivity).
  split; [exact U |].
  apply (struct_pack_unpack_inverse 13 [x00; x00; x00; x0d]). exact U.
Defined.

Lemma embed_returns_iff_witness :
  ((exists json_str,
      json_dumps sample_heap sample_root = Ok json_str
      /\ 1 + Z.of_nat (List.length (zlib_store (encode_utf8 json_str)))
         < 2 ^ 32)
   /\ (12 <= List.length png_1x1)%nat)
  /\ exists out, embed zlib_store png_1x1 sample_heap sample_root = Ok out.
Proof.
  assert (H : (exists json_str,
                 json_dumps sample_heap sample_root = Ok json_str
                 /\ 1 + Z.of_nat (List.length (zlib_store (encode_utf8 json_str)))
                    < 2 ^ 32)
              /\ (12 <= List.length png_1x1)%nat).
  { split.
    - exists sample_json. split; vm_compute; reflexivity.
    - vm_compute. lia. }
  split; [exact H |].
  apply (embed_returns_iff zlib_store png_1x1 sample_heap sample_root).
  exact H.
Defined.

Lemma embed_injective_witness :
  (valid_container png_1x1 = true
   /\ embed zlib_store png_1x1 sample_heap sample_root = Ok sample_out
   /\ embed zlib_store png_1x1 (List.map tuple_as_list sample_heap) sample_root
      = Ok sample_out)
  /\ injected_chunk zlib_store sample_heap sample_root
     = injected_chunk zlib_store (List.map tuple_as_list sample_heap)
         sample_root.
Proof.
  assert (V : valid_container png_1x1 = true) by (vm_compute; reflexivity).
  assert (H1 : embed zlib_store png_1x1 sample_heap sample_root = Ok sample_out)
    by (vm_compute; reflexivity).
  assert (H2 : embed zlib_store png_1x1 (List.map tuple_as_list sample_heap)
                 sample_root = Ok sample_out)
    by (vm_compute; reflexivity).
  split; [repeat split; assumption |].
  exact (proj2 (embed_injective zlib_store _ _ _ _ _ _ _ V V H1 H2)).
Defined.

Lemma embed_keeps_well_formed_witness :
  (png_well_formed png_1x1 = true
   /\ embed zlib_store png_1x1 sample_heap sample_root = Ok sample_out)
  /\ png_well_formed sample_out = true.
Proof.
  assert (W : png_well_formed png_1x1 = true) by (vm_compute; reflexivity).
  assert (H : embed zlib_store png_1x1 sample_heap sample_root = Ok sample_out)
    by (vm_compute; reflexivity).
  split; [split; assumption |].
  exact (embed_keeps_well_formed zlib_store _ _ _ _ W H).
Defined.


Lemma region_box_painted_witness :
  exists img1 img2,
    (ink (CStr (str "#e74c3c")) = Ok (231, 76, 60)
     /\ ink (CTuple (87, 41, 36)) = Ok (87, 41, 36)
     /\ draw_rectangle (1, 1, 6, 6) None (Some (CStr (str "#e74c3c"))) 2
          small_canvas = Ok img1
     /\ draw_rectangle (1 + 2, 1 + 2, 6 - 2, 6 - 2)
          (Some (CTuple (87, 41, 36))) None 1 img1 = Ok img2
     /\ pixel_at small_canvas 2 3 = Some (26, 58, 92))
    /\ pixel_at img2 2 3 = Some (231, 76, 60).
Proof.
  eexists. eexists.
  assert (Ho : ink (CStr (str "#e74c3c")) = Ok (231, 76, 60))
    by (vm_compute; reflexivity).
  assert (Hf : ink (CTuple (87, 41, 36)) = Ok (87, 41, 36)) by reflexivity.
  assert (Hp : pixel_at small_canvas 2 3 = Some (26, 58, 92))
    by (vm_compute; reflexivity).
  assert (H1 : draw_rectangle (1, 1, 6, 6) None (Some (CStr (str "#e74c3c"))) 2
                 small_canvas
               = Ok (map_pixels
                       (fun x y old =>
                          if in_box 1 1 6 6 x y
                             && negb (in_box (1 + 2) (1 + 2) (6 - 2) (6 - 2) x y)
                          then (231, 76, 60) else old) small_canvas))
    by (unfold draw_rectangle; rewrite Ho; reflexivity).
  split.
  { split; [exact Ho |]. split; [exact Hf |]. split; [exact H1 |].
    split; [reflexivity | exact Hp]. }
  exact (region_box_painted _ _ _ 1 1 6 6 _ _ _ _ _ 2 3 Ho Hf H1 eq_refl Hp).
Defined.

Lemma main_writes_the_embedding_witness :
  exists w',
    main unit no_font tt blank_text zlib_store tiny_png always_writable
      empty_world = (w', Ok tt)
    /\ exists out,
         embed zlib_store png_1x1 (heap_of aiip_data) (root_of aiip_data)
         = Ok out
         /\ read_file (files w') "sample.aiip" = Some out.
Proof.
  destruct (create_aiip_image_good unit no_font tt blank_text) as (img & E & _).
  destruct (embed zlib_store png_1x1 (heap_of aiip_data) (root_of aiip_data))
    as [out |] eqn:H; [| vm_compute in H; discriminate].
  assert (M : exists w',
            main unit no_font tt blank_text zlib_store tiny_png
              always_writable empty_world = (w', Ok tt)).
  { unfold main, embed_aiip_chunk, tiny_png. rewrite E, H.
    cbn [always_writable]. eexists. reflexivity. }
  destruct M as [w' M]. exists w'. split; [exact M |].
  destruct (main_writes_the_embedding _ _ _ _ _ _ _ _ _ M)
    as (img' & out' & _ & H' & R & _).
  unfold tiny_png in H'. exists out. split; [reflexivity |].
  rewrite R. congruence.
Defined.


(** ** Which exception the serializer raises *)


(** A [TypeError] comes from a value the encoder has no text for. *)
Lemma iterencode_type_error (fuel : nat) (h : heap) :
  forall (markers : list nat) (o : pyval),
    iterencode fuel h markers o = Some (Raise TypeError) ->
    exists v, reaches h o v /\ unsupported h v.
Proof.
  induction fuel as [| fuel IH]; intros markers o H; simpl in H;
    [discriminate |].
  assert (Down : forall a obj x,
            o = PRef a -> nth_error h a = Some obj -> In x (children obj) ->
            iterencode fuel h (a :: markers) x = Some (Raise TypeError) ->
            exists v, reaches h o v /\ unsupported h v).
  { intros a obj x -> Ha Hx Hr. destruct (IH _ _ Hr) as (v & R & U).
    exists v. split; [| exact U].
    econstructor; [| exact R]. exists a, obj. auto. }
  destruct o as [| [|] | | | | a |]; try discriminate.
  - destruct (nth_error h a) as [[l | l | items] |] eqn:Ea.
    + destruct l as [| x l]; [discriminate |].
      destruct (marked a markers); [discriminate |].
      apply wrap_raise, encode_each_raise in H. destruct H as (y & Hy & Ey).
      exact (Down a _ y eq_refl Ea Hy Ey).
    + destruct l as [| x l]; [discriminate |].
      destruct (marked a markers); [discriminate |].
      apply wrap_raise, encode_each_raise in H. destruct H as (y & Hy & Ey).
      exact (Down a _ y eq_refl Ea Hy Ey).
    + destruct items as [| kv items]; [discriminate |].
      destruct (marked a markers); [discriminate |].
      apply wrap_raise, encode_each_raise in H. destruct H as (y & Hy & Ey).
      apply encode_item_raise in Ey. destruct Ey as [[_ Ek] | Ey].
      * exists (PRef a). split; [constructor |].
        simpl. rewrite Ea. exists y. auto.
      * apply (in_map snd) in Hy. exact (Down a _ (snd y) eq_refl Ea Hy Ey).
    + exists (PRef a). split; [constructor |]. simpl. rewrite Ea. exact I.
  - exists (PObject tyname). split; [constructor | exact I].
Qed.


Section ExceptionKinds.

Variable compress : bytes -> bytes.

(** An exception of [embed] is the serializer's, or [struct.error]. *)
Lemma embed_raise_cases (png_bytes : bytes) (h : heap) (data : pyval)
    (e : exn) :
  embed compress png_bytes h data = Raise e ->
  json_dumps h data = Raise e \/ e = struct_error.
Proof.
  intros H. destruct (json_dumps h data) as [s | e'] eqn:E.
  - right. unfold embed, compressed_payload in H. rewrite E in H.
    cbn [bind] in H.
    destruct (build_chunk (compress (encode_utf8 s))) as [chunk | e'] eqn:B.
    + cbn [bind] in H.
      destruct (insert_position png_bytes) as [pos | e'] eqn:P;
        [discriminate |].
      cbn [bind] in H. unfold insert_position in P.
      destruct (struct_unpack_I (slice png_bytes 8 12)) as [n | e''] eqn:U;
        [discriminate |].
      cbn [bind] in P.
      destruct (slice png_bytes 8 12) as [| ? [| ? [| ? [| ? [| ? ?]]]]];
        simpl in U; congruence.
    + cbn [bind] in H. unfold build_chunk in B.
      destruct (struct_pack_I (Z.of_nat
                  (List.length (x01 :: compress (encode_utf8 s)))))
        as [lf | e''] eqn:L.
      * cbn [bind] in B. rewrite crc_mask in B.
        rewrite struct_pack_I_ok in B by apply zlib_crc32_range.
        discriminate.
      * cbn [bind] in B. unfold struct_pack_I in L.
        destruct ((0 <=? _) && (_ <? 2 ^ 32)); congruence.
  - left. rewrite (embed_serialization_error compress png_bytes h data e' E) in H.
    congruence.
Qed.


(** When [embed] stops with a [TypeError], the metadata holds a value the
    encoder has no text for: an object of another type, or a dictionary
    key that is a container or such an object. *)
Theorem type_error_means_unsupported (png_bytes : bytes) (h : heap)
    (data : pyval) :
  embed compress png_bytes h data = Raise TypeError ->
  exists v, reaches h data v /\ unsupported h v.
Proof.
  intros H. apply embed_raise_cases in H.
  destruct H as [J | J]; [| discriminate].
  unfold json_dumps in J.
  destruct (iterencode (Datatypes.S (List.length h)) h [] data)
    as [[s | e] |] eqn:E; try discriminate.
  injection J as ->.
  exact (iterencode_type_error _ h [] data E).
Qed.

End ExceptionKinds.


Lemma type_error_means_unsupported_witness :
  embed zlib_store png_1x1 object_list_heap object_list = Raise TypeError
  /\ exists v, reaches object_list_heap object_list v
               /\ unsupported object_list_heap v.
Proof.
  assert (H : embed zlib_store png_1x1 object_list_heap object_list
              = Raise TypeError) by (vm_compute; reflexivity).
  split; [exact H |].
  exact (type_error_means_unsupported zlib_store _ _ _ H).
Defined.
